(** * Cortex evaluator: circuit breaker and lane router

    A shallow embedding of
      - [app/services/circuit_breaker.py]  (CircuitBreaker)
      - [app/services/ai_router.py]        (CortexRouter)
    and the properties of their state machine, routing decision and
    fallback chain.

    Conventions.
      - Python [int] is [Z]; [len] is a [nat] injected into [Z].
      - Wall-clock time ([time.time()], [config.timeout]) is counted in
        integral clock ticks, a [Z]; every [time.time()] in the source is a
        separate reading of a clock oracle.
      - A [dict] with string keys is a [gmap string _].
      - An awaited coroutine is a state transformer on the outside world
        that either returns a value or raises. *)

From Stdlib Require Import ZArith Lia Bool Ascii String.
From stdpp Require Import gmap strings list fin_maps.

Local Open Scope Z_scope.

(** ** Python values, exceptions, outcomes *)

Module Py.

(** The values a result or input dictionary holds. *)
Inductive PyVal : Type :=
| PyNone
| PyBool (b : bool)
| PyInt (n : Z)
| PyStr (s : string)
| PyList (items : list string).

(** Python truthiness: [bool(v)]. *)
Definition truthy (v : PyVal) : bool :=
  match v with
  | PyNone => false
  | PyBool b => b
  | PyInt n => negb (n =? 0)
  | PyStr s => negb (String.eqb s "")
  | PyList l => match l with [] => false | _ :: _ => true end
  end.

(** [d.get(k)]: the value under [k], [None] when absent. *)
Definition dict_get (d : gmap string PyVal) (k : string) : PyVal :=
  default PyNone (d !! k).

(** [k in d]. *)
Definition dict_in (k : string) (d : gmap string PyVal) : bool :=
  bool_decide (is_Some (d !! k)).

(** [s.lower()], on ASCII letters. *)
Definition ascii_lower (c : ascii) : ascii :=
  let n := nat_of_ascii c in
  if ((65 <=? n) && (n <=? 90))%nat then ascii_of_nat (n + 32) else c.

Fixpoint lower (s : string) : string :=
  match s with
  | EmptyString => EmptyString
  | String c rest => String (ascii_lower c) (lower rest)
  end.

(** [sub in s], for strings. *)
Definition contains (sub s : string) : bool :=
  match String.index 0 sub s with
  | Some _ => true
  | None => false
  end.

(** ["x" * n] *)
Fixpoint x_times (n : nat) : string :=
  match n with
  | O => EmptyString
  | S k => String "x"%char (x_times k)
  end.

(** The exceptions the two modules raise or let through.
    [CircuitBreakerError] is a subclass of [Exception]; [Exception msg]
    stands for any other [Exception] raised with message [msg]. *)
Inductive exn : Type :=
| CircuitBreakerError (provider_name : string) (retry_after : Z)
| IndexError
| Exception (msg : string).

(** What a call yields: a returned value or a raised exception. *)
Inductive Outcome (A : Type) : Type :=
| Return (a : A)
| Raise (e : exn).
Arguments Return {A} a.
Arguments Raise {A} e.

(** [l[0]] *)
Definition first {A} (l : list A) : Outcome A :=
  match l with
  | [] => Raise IndexError
  | x :: _ => Return x
  end.

(** Computations that mutate a state [S] and return or raise. A raise
    keeps the mutations made so far, as in Python. *)
Definition Exec (S A : Type) : Type := S -> Outcome A * S.

#[global] Instance Exec_ret {S} : MRet (Exec S) := fun A a s => (Return a, s).
#[global] Instance Exec_bind {S} : MBind (Exec S) := fun A B f m s =>
  match m s with
  | (Return a, s') => f a s'
  | (Raise e, s') => (Raise e, s')
  end.

Definition raise {S A} (e : exn) : Exec S A := fun s => (Raise e, s).

(** [try: body  except Exception as e: handler e] *)
Definition try_except {S A} (body : Exec S A) (handler : exn -> Exec S A)
  : Exec S A :=
  fun s =>
    match body s with
    | (Return a, s') => (Return a, s')
    | (Raise e, s') => handler e s'
    end.

(** A computation that only returns or raises, run inside [Exec]. *)
Definition pure {S A} (o : Outcome A) : Exec S A := fun s => (o, s).

#[global] Instance Outcome_ret : MRet Outcome := fun A a => Return a.
#[global] Instance Outcome_bind : MBind Outcome := fun A B f o =>
  match o with
  | Return a => f a
  | Raise e => Raise e
  end.

End Py.
Import Py.

(** ** circuit_breaker.py *)

Module Breaker.

Inductive CircuitState : Type := CLOSED | OPEN | HALF_OPEN.

Global Instance CircuitState_eq_dec : EqDecision CircuitState.
Proof. solve_decision. Defined.

Record CircuitBreakerConfig : Type := {
  failure_threshold : Z;
  success_threshold : Z;
  timeout : Z;
  window_size : nat
}.

(** [CircuitBreakerConfig()] with the dataclass defaults (60 s in ticks
    of one second). *)
Definition default_config : CircuitBreakerConfig :=
  {| failure_threshold := 5; success_threshold := 2;
     timeout := 60; window_size := 100 |}.

Record CircuitBreaker : Type := {
  provider_name : string;
  config : CircuitBreakerConfig;
  _state : CircuitState;
  _failure_count : Z;
  _success_count : Z;
  _opened_at : option Z;
  _call_history : list bool
}.

(** Field updates of the breaker object. *)
Definition with_state (v : CircuitState) (cb : CircuitBreaker)
  : CircuitBreaker :=
  {| provider_name := provider_name cb; config := config cb;
     _state := v;
     _failure_count := _failure_count cb;
     _success_count := _success_count cb;
     _opened_at := _opened_at cb;
     _call_history := _call_history cb |}.

Definition with_failure_count (v : Z) (cb : CircuitBreaker)
  : CircuitBreaker :=
  {| provider_name := provider_name cb; config := config cb;
     _state := _state cb;
     _failure_count := v;
     _success_count := _success_count cb;
     _opened_at := _opened_at cb;
     _call_history := _call_history cb |}.

Definition with_success_count (v : Z) (cb : CircuitBreaker)
  : CircuitBreaker :=
  {| provider_name := provider_name cb; config := config cb;
     _state := _state cb;
     _failure_count := _failure_count cb;
     _success_count := v;
     _opened_at := _opened_at cb;
     _call_history := _call_history cb |}.

Definition with_opened_at (v : option Z) (cb : CircuitBreaker)
  : CircuitBreaker :=
  {| provider_name := provider_name cb; config := config cb;
     _state := _state cb;
     _failure_count := _failure_count cb;
     _success_count := _success_count cb;
     _opened_at := v;
     _call_history := _call_history cb |}.

Definition with_call_history (v : list bool) (cb : CircuitBreaker)
  : CircuitBreaker :=
  {| provider_name := provider_name cb; config := config cb;
     _state := _state cb;
     _failure_count := _failure_count cb;
     _success_count := _success_count cb;
     _opened_at := _opened_at cb;
     _call_history := v |}.

(** [CircuitBreaker(provider_name, config)] *)
Definition __init__ (name : string) (cfg : option CircuitBreakerConfig)
  : CircuitBreaker :=
  {| provider_name := name;
     config := default default_config cfg;
     _state := CLOSED;
     _failure_count := 0;
     _success_count := 0;
     _opened_at := None;
     _call_history := [] |}.

(** [deque(maxlen=n).append(x)]: push on the right, and drop from the
    left whatever exceeds [n]. A negative [maxlen] is refused by [deque]
    when the breaker is built, hence [window_size] is a [nat]. *)
Definition deque_append (maxlen : nat) (h : list bool) (x : bool)
  : list bool :=
  let h' := h ++ [x] in
  drop (length h' - maxlen)%nat h'.

(** The breaker as [_transition_to_half_open] leaves it. *)
Definition half_opened (cb : CircuitBreaker) : CircuitBreaker :=
  with_success_count 0 (with_state HALF_OPEN cb).

(** The invariant that ties the timestamp to the state. *)
Definition opened_at_inv (cb : CircuitBreaker) : Prop :=
  _opened_at cb = None <-> _state cb = CLOSED.

(** The history never outgrows its window. *)
Definition history_inv (cb : CircuitBreaker) : Prop :=
  (length (_call_history cb) <= window_size (config cb))%nat.

(** What the counters can be in each state: none is negative, an open
    breaker has both at 0, a closed one counts failures below its
    threshold and a half-open one successes below its threshold (a
    threshold below 1 acts as 1). *)
Definition counters_inv (cb : CircuitBreaker) : Prop :=
  0 <= _failure_count cb /\ 0 <= _success_count cb /\
  match _state cb with
  | OPEN => _failure_count cb = 0 /\ _success_count cb = 0
  | CLOSED =>
      _success_count cb = 0 /\
      _failure_count cb < Z.max 1 (failure_threshold (config cb))
  | HALF_OPEN =>
      _failure_count cb = 0 /\
      _success_count cb < Z.max 1 (success_threshold (config cb))
  end.

Section WithWorld.

(** [E] is the state of everything outside the breaker that an awaited
    operation may touch. *)
Context {E : Type}.

(** The outside world: a clock oracle, the number of readings taken so
    far, and the environment of the wrapped operations. *)
Record World : Type := {
  clock : nat -> Z;
  reads : nat;
  env : E
}.

(** The state a method of the breaker runs in: the object itself and
    the world around it. *)
Record St : Type := { self : CircuitBreaker; world : World }.

(** Methods of the breaker mutate [St] and return or raise. *)
Abbreviation M := (Exec St).

Definition get_self : M CircuitBreaker := fun s => (Return (self s), s).

(** [self.<field> = v]: an assignment to one field of the breaker. *)
Definition assign (f : CircuitBreaker -> CircuitBreaker) : M unit :=
  fun s => (Return tt, {| self := f (self s); world := world s |}).

(** The world after [n] more clock readings. *)
Definition ticked (n : nat) (w : World) : World :=
  {| clock := clock w; reads := (n + reads w)%nat; env := env w |}.

(** [time.time()] *)
Definition time_time : M Z := fun s =>
  (Return (clock (world s) (reads (world s))),
   {| self := self s; world := ticked 1 (world s) |}).

(** An awaitable operation: it runs against the world, not against the
    breaker's fields. *)
Definition Op (T : Type) : Type := World -> Outcome T * World.

(** [await func(...)] *)
Definition await {T} (func : Op T) : M T := fun s =>
  let '(o, w') := func (world s) in
  (o, {| self := self s; world := w' |}).

(** *** State transitions *)

Definition _transition_to_open : M unit :=
  assign (with_state OPEN);;
  now ← time_time;
  assign (with_opened_at (Some now));;
  assign (with_success_count 0);;
  assign (with_failure_count 0).

Definition _transition_to_half_open : M unit :=
  assign (with_state HALF_OPEN);;
  assign (with_success_count 0).

Definition _transition_to_closed : M unit :=
  assign (with_state CLOSED);;
  assign (with_success_count 0);;
  assign (with_failure_count 0);;
  assign (with_opened_at None).

(** [self._call_history.append(x)] *)
Definition history_append (x : bool) : M unit :=
  assign (fun cb =>
    with_call_history
      (deque_append (window_size (config cb)) (_call_history cb) x) cb).

Definition _should_attempt_reset : M bool :=
  cb ← get_self;
  match _opened_at cb with
  | None => mret false
  | Some t0 =>
      now ← time_time;
      mret (timeout (config cb) <=? now - t0)
  end.

Definition _on_success : M unit :=
  history_append true;;
  cb ← get_self;
  match _state cb with
  | HALF_OPEN =>
      assign (with_success_count (_success_count cb + 1));;
      cb ← get_self;
      if success_threshold (config cb) <=? _success_count cb
      then _transition_to_closed
      else mret tt
  | CLOSED => assign (with_failure_count 0)
  | OPEN => mret tt
  end.

Definition _on_failure : M unit :=
  history_append false;;
  cb ← get_self;
  match _state cb with
  | CLOSED =>
      assign (with_failure_count (_failure_count cb + 1));;
      cb ← get_self;
      if failure_threshold (config cb) <=? _failure_count cb
      then _transition_to_open
      else mret tt
  | HALF_OPEN => _transition_to_open
  | OPEN => mret tt
  end.

(** The first statement of [call]: an open breaker either moves to
    half-open or refuses the call. *)
Definition call_guard : M unit :=
  cb ← get_self;
  if decide (_state cb = OPEN) then
    attempt ← _should_attempt_reset;
    if attempt : bool then _transition_to_half_open
    else
      now ← time_time;
      cb ← get_self;
      let retry_after :=
        Z.max 0 (timeout (config cb) - (now - default 0 (_opened_at cb)))
      in raise (CircuitBreakerError (provider_name cb) retry_after)
  else mret tt.

(** [CircuitBreaker.call] *)
Definition call {T} (func : Op T) : M T :=
  call_guard;;
  try_except
    (result ← await func;
     _on_success;;
     mret result)
    (fun e => _on_failure;; raise e).

(** [CircuitBreaker.reset] *)
Definition reset : M unit :=
  assign (with_state CLOSED);;
  assign (with_failure_count 0);;
  assign (with_success_count 0);;
  assign (with_opened_at None);;
  assign (with_call_history []).


(** [self._call_history.popleft()]: raises on an empty deque. *)
Definition popleft : M unit :=
  cb ← get_self;
  match _call_history cb with
  | [] => raise IndexError
  | _ :: rest => assign (with_call_history rest)
  end.

(** [for _ in range(n): body] *)
Fixpoint for_range (n : nat) (body : M unit) : M unit :=
  match n with
  | O => mret tt
  | S k => body;; for_range k body
  end.

(** [CircuitBreaker._trim_history] *)
Definition _trim_history : M unit :=
  cb ← get_self;
  if (window_size (config cb) <? length (_call_history cb))%nat then
    let excess :=
      (length (_call_history cb) - window_size (config cb))%nat in
    for_range excess popleft
  else mret tt.

(** The breaker after a call, and after a series of calls made one
    after the other, whatever each of them returned or raised. *)
Definition after_call {T} (func : Op T) (s : St) : St :=
  snd (call func s).

Definition after_calls {T} (funcs : list (Op T)) (s : St) : St :=
  fold_left (fun s f => after_call f s) funcs s.

(** An operation that raises, resp. returns, whenever it is run. *)
Definition fails {T} (func : Op T) : Prop :=
  forall w, exists e w', func w = (Raise e, w').

Definition succeeds {T} (func : Op T) : Prop :=
  forall w, exists r w', func w = (Return r, w').

End WithWorld.

Arguments World : clear implicits.
Arguments St : clear implicits.
Arguments Op : clear implicits.

(** *** Stub operations, as the test-suite uses them

    The environment is a counter of invocations; [success_func] returns
    and [fail_func] raises, and both count the invocation. *)

Definition invoked (w : World nat) : World nat :=
  {| clock := clock w; reads := reads w; env := S (env w) |}.

Definition success_func : Op nat string :=
  fun w => (Return "success"%string, invoked w).

Definition fail_func : Op nat string :=
  fun w => (Raise (Exception "Failed"), invoked w).

(** A world whose clock shows [t0] at the first reading and one tick more
    at each later one, with no invocation counted yet. *)
Definition world_at (t0 : Z) : World nat :=
  {| clock := fun n => t0 + Z.of_nat n; reads := 0%nat; env := 0%nat |}.

(** [CircuitBreakerConfig(failure_threshold=3, success_threshold=2,
    timeout=5.0)], the fixture of the test-suite. *)
Definition test_config : CircuitBreakerConfig :=
  {| failure_threshold := 3; success_threshold := 2;
     timeout := 5; window_size := 100 |}.

(** The fixture after its circuit opened at time [t0]. *)
Definition opened_breaker (t0 : Z) : CircuitBreaker :=
  with_opened_at (Some t0)
    (with_state OPEN (__init__ "test_provider" (Some test_config))).

(** A world whose clock advances by [step] ticks from one reading to
    the next, starting at 0. *)
Definition world_stepping (step : Z) : World nat :=
  {| clock := fun n => step * Z.of_nat n; reads := 0%nat; env := 0%nat |}.

(** The fixture as the reset test leaves it before resetting: marked
    open by hand, without an opening time. *)
Definition marked_open : CircuitBreaker :=
  with_state OPEN (__init__ "test_provider" (Some test_config)).

End Breaker.

(** ** ai_router.py *)

Module Router.

Inductive RoutingLane : Type := FAST | SMART.

#[global] Instance RoutingLane_eq_dec : EqDecision RoutingLane.
Proof. solve_decision. Defined.

(** [sum(len(content) for content in codebase.values())] *)
Definition total_tokens (codebase : gmap string string) : Z :=
  map_fold (fun _ content acc => Z.of_nat (String.length content) + acc)
           0 codebase.

(** [CortexRouter._validate_result]. Python's [and] yields [False] when
    the [all(...)] fails and the value under ['success'] otherwise; the
    callers test the outcome for truth. *)
Definition _validate_result (result : gmap string PyVal) : PyVal :=
  let required_fields := ["success"; "result"]%string in
  if forallb (fun field => dict_in field result) required_fields
  then dict_get result "success"
  else PyBool false.

Section WithEnv.

(** [E] is the state behind the providers: vendors, breakers, clock. *)
Context {E : Type}.

(** The part of the [AIProvider] protocol the router relies on. *)
Record AIProvider : Type := {
  name : string;
  provider_lane : RoutingLane;
  analyze_code :
    gmap string string -> gmap string PyVal -> option string ->
    E -> Outcome (gmap string PyVal) * E
}.

Record RoutingDecision : Type := {
  provider : AIProvider;
  lane : RoutingLane;
  reason : string
}.

Record CortexRouter : Type := {
  fast_lane : list AIProvider;
  smart_lane : list AIProvider
}.

(** [CortexRouter.__init__], given the five provider objects it builds. *)
Definition __init__ (ollama groq gemini claude openai : AIProvider)
  : CortexRouter :=
  {| fast_lane := [ollama; groq; gemini];
     smart_lane := [claude; openai] |}.

(** The loop of the [--local] branch: the first provider of the lane
    named "ollama", if the loop returns at all. *)
Fixpoint find_local (providers : list AIProvider) : option AIProvider :=
  match providers with
  | [] => None
  | provider :: rest =>
      if String.eqb (name provider) "ollama" then Some provider
      else find_local rest
  end.

(** [CortexRouter.route_analysis] *)
Definition route_analysis (self : CortexRouter)
    (codebase : gmap string string) (input_data : gmap string PyVal)
    (system_doc : option string) (user_intent : option string)
  : Outcome RoutingDecision :=
  (* Phase 1: hard constraints *)
  if 100000 <? total_tokens codebase then
    p ← first (smart_lane self);
    mret {| provider := p; lane := SMART;
            reason := "Large context size requires SMART lane" |}
  else if truthy (dict_get input_data "has_vision") then
    p ← first (smart_lane self);
    mret {| provider := p; lane := SMART;
            reason := "Vision capabilities required" |}
  (* Phase 2: user intent *)
  else if decide (user_intent = Some "--strong"%string) then
    p ← first (smart_lane self);
    mret {| provider := p; lane := SMART;
            reason := "User requested strong analysis" |}
  else
    match (if decide (user_intent = Some "--local"%string)
           then find_local (fast_lane self) else None) with
    | Some p =>
        mret {| provider := p; lane := FAST;
                reason := "User requested local provider" |}
    | None =>
        if decide (user_intent = Some "--cheap"%string) then
          p ← first (fast_lane self);
          mret {| provider := p; lane := FAST;
                  reason := "User requested cheap provider" |}
        else
          (* Phase 3: default *)
          p ← first (fast_lane self);
          mret {| provider := p; lane := FAST;
                  reason := "Default FAST lane" |}
    end.

(** The world a request runs in: the providers' environment and the log
    of awaited [analyze_code] calls, by provider name, oldest first. *)
Record RWorld : Type := {
  env : E;
  awaited : list string
}.

Abbreviation RM := (Exec RWorld).

(** [await provider.analyze_code(codebase, input_data, system_doc)] *)
Definition await_analyze_code (p : AIProvider)
    (codebase : gmap string string) (input_data : gmap string PyVal)
    (system_doc : option string) : RM (gmap string PyVal) :=
  fun w =>
    let '(o, e') := analyze_code p codebase input_data system_doc (env w) in
    (o, {| env := e'; awaited := awaited w ++ [name p] |}).

Section Request.

Variable codebase : gmap string string.
Variable input_data : gmap string PyVal.
Variable system_doc : option string.

(** The loop over the primary lane. [Some r]: the function returned [r]
    from inside the loop; [None]: the loop ran to its end. *)
Fixpoint primary_loop (providers : list AIProvider)
  : RM (option (gmap string PyVal)) :=
  match providers with
  | [] => mret None
  | provider :: rest =>
      checked ← await_analyze_code provider codebase input_data system_doc;
      if negb (truthy (_validate_result checked)) then
        primary_loop rest
      else
        result ← await_analyze_code provider codebase input_data system_doc;
        mret (Some result)
  end.

(** The loop over the opposite lane, with its [try]/[except]. *)
Fixpoint fallback_loop (providers : list AIProvider)
  : RM (option (gmap string PyVal)) :=
  match providers with
  | [] => mret None
  | provider :: rest =>
      returned ←
        try_except
          (result ← await_analyze_code provider codebase input_data
                      system_doc;
           if truthy (_validate_result result) then mret (Some result)
           else mret None)
          (fun e => mret None);
      match returned with
      | Some result => mret (Some result)
      | None => fallback_loop rest
      end
  end.

(** [CortexRouter.analyze_with_fallback] *)
Definition analyze_with_fallback (self : CortexRouter)
    (user_intent : option string) : RM (gmap string PyVal) :=
  decision ← pure (route_analysis self codebase input_data system_doc
                     user_intent);
  returned ← primary_loop
    (if decide (lane decision = SMART) then smart_lane self
     else fast_lane self);
  match returned with
  | Some result => mret result
  | None =>
      let fallback_lane :=
        if decide (lane decision = SMART) then fast_lane self
        else smart_lane self in
      returned ← fallback_loop fallback_lane;
      match returned with
      | Some result => mret result
      | None => raise (Exception "All AI providers failed")
      end
  end.

End Request.


Definition answers_invalid (p : AIProvider) : Prop :=
  forall codebase input_data system_doc e, exists r e',
    analyze_code p codebase input_data system_doc e = (Return r, e') /\
    truthy (_validate_result r) = false.

Definition unusable (p : AIProvider) : Prop :=
  forall codebase input_data system_doc e,
    (exists x e',
       analyze_code p codebase input_data system_doc e = (Raise x, e')) \/
    (exists r e',
       analyze_code p codebase input_data system_doc e = (Return r, e') /\
       truthy (_validate_result r) = false).

(** The lane a decision makes the primary one, and the other one. *)
Definition primary_lane (self : CortexRouter) (d : RoutingDecision)
  : list AIProvider :=
  if decide (lane d = SMART) then smart_lane self else fast_lane self.

Definition fallback_lane (self : CortexRouter) (d : RoutingDecision)
  : list AIProvider :=
  if decide (lane d = SMART) then fast_lane self else smart_lane self.

(** How often [analyze_code] of the provider named [nm] was awaited. *)
Definition call_count (nm : string) (w : RWorld) : nat :=
  length (filter (fun x => x = nm) (awaited w)).

End WithEnv.

Arguments AIProvider : clear implicits.
Arguments RoutingDecision : clear implicits.
Arguments CortexRouter : clear implicits.
Arguments RWorld : clear implicits.

(** *** Mock providers, as the test-suite patches them in

    [AsyncMock(return_value=r)] and [AsyncMock(side_effect=e)]: the mock
    has no state of its own, the awaited calls are counted by [awaited]. *)

Definition mock_returning (nm : string) (ln : RoutingLane)
    (r : gmap string PyVal) : AIProvider unit :=
  {| name := nm; provider_lane := ln;
     analyze_code := fun _ _ _ e => (Return r, e) |}.

Definition mock_raising (nm : string) (ln : RoutingLane) (e : exn)
  : AIProvider unit :=
  {| name := nm; provider_lane := ln;
     analyze_code := fun _ _ _ u => (Raise e, u) |}.

(** A provider over a counter of vendor calls that answers [r] the first
    time it is asked and raises [e] from then on. *)
Definition answers_once (nm : string) (ln : RoutingLane)
    (r : gmap string PyVal) (e : exn) : AIProvider nat :=
  {| name := nm; provider_lane := ln;
     analyze_code := fun _ _ _ n =>
       match n with
       | O => (Return r, S n)
       | S _ => (Raise e, S n)
       end |}.

Definition valid_result (by_provider : string) : gmap string PyVal :=
  {[ "success"%string := PyBool true;
     "result"%string := PyStr "Analysis complete";
     "provider"%string := PyStr by_provider ]}.

(** The request of the fallback tests. *)
Definition test_codebase : gmap string string :=
  {[ "test.py"%string := "print('hello')"%string ]}.

Definition test_input : gmap string PyVal :=
  {[ "query"%string := PyStr "analyze" ]}.

(** A world in which nothing was awaited yet. *)
Definition fresh {E} (e : E) : RWorld E := {| env := e; awaited := [] |}.

(** The router whose first fast-lane provider raises [e] while every
    other provider answers with a valid result. *)
Definition router_first_raises (e : exn) : CortexRouter unit :=
  __init__ (mock_raising "ollama" FAST e)
           (mock_returning "groq" FAST (valid_result "groq"))
           (mock_returning "gemini" FAST (valid_result "gemini"))
           (mock_returning "claude" SMART (valid_result "claude"))
           (mock_returning "openai" FAST (valid_result "openai")).

(** The router whose providers all answer with a valid result. *)
Definition router_all_valid : CortexRouter unit :=
  __init__ (mock_returning "ollama" FAST (valid_result "ollama"))
           (mock_returning "groq" FAST (valid_result "groq"))
           (mock_returning "gemini" FAST (valid_result "gemini"))
           (mock_returning "claude" SMART (valid_result "claude"))
           (mock_returning "openai" FAST (valid_result "openai")).

(** The router whose first fast-lane provider answers once and is rate
    limited afterwards. *)
Definition router_first_answers_once : CortexRouter nat :=
  __init__ (answers_once "ollama" FAST (valid_result "ollama")
              (Exception "Rate limited"))
           (answers_once "groq" FAST (valid_result "groq")
              (Exception "Rate limited"))
           (answers_once "gemini" FAST (valid_result "gemini")
              (Exception "Rate limited"))
           (answers_once "claude" SMART (valid_result "claude")
              (Exception "Rate limited"))
           (answers_once "openai" FAST (valid_result "openai")
              (Exception "Rate limited")).

(** The result of the skip-on-invalid test: no required key at all. *)
Definition invalid_result : gmap string PyVal :=
  {[ "invalid"%string := PyStr "data" ]}.

(** A router whose fast lane answers with invalid results only, whose
    first smart-lane provider raises and whose second one answers. *)
Definition router_fast_invalid : CortexRouter unit :=
  __init__ (mock_returning "ollama" FAST invalid_result)
           (mock_returning "groq" FAST invalid_result)
           (mock_returning "gemini" FAST invalid_result)
           (mock_raising "claude" SMART (Exception "Failed"))
           (mock_returning "openai" FAST (valid_result "openai")).

(** A router none of whose providers is of use. *)
Definition router_none_usable : CortexRouter unit :=
  __init__ (mock_returning "ollama" FAST invalid_result)
           (mock_returning "groq" FAST invalid_result)
           (mock_returning "gemini" FAST invalid_result)
           (mock_raising "claude" SMART (Exception "Failed"))
           (mock_returning "openai" FAST invalid_result).

(** The input of the vision test. *)
Definition vision_input : gmap string PyVal :=
  {[ "has_vision"%string := PyBool true; "query"%string := PyStr "test" ]}.

(** A router whose fast lane has no provider named "ollama". *)
Definition router_without_local : CortexRouter unit :=
  {| fast_lane := [mock_returning "groq" FAST (valid_result "groq");
                   mock_returning "gemini" FAST (valid_result "gemini")];
     smart_lane := [mock_returning "claude" SMART (valid_result "claude");
                    mock_returning "openai" FAST (valid_result "openai")] |}.

(** A codebase of one file of [n] characters. *)
Definition codebase_of_size (n : Z) : gmap string string :=
  {[ "main.py"%string := x_times (Z.to_nat n) ]}.

End Router.

(** ** provider_configs.py *)

Module Configs.

(** [os.getenv(key, default)] over the process environment; the default
    is [None] when none is given. *)
Definition getenv (environ : gmap string string) (key : string)
    (default_ : option string) : option string :=
  match environ !! key with
  | Some v => Some v
  | None => default_
  end.

(** [load_provider_configs] *)
Definition load_provider_configs (environ : gmap string string)
  : gmap string (gmap string (option string)) :=
  {[ "gemini"%string :=
       {[ "api_key"%string := getenv environ "GEMINI_API_KEY" (Some "");
          "model"%string :=
            getenv environ "GEMINI_MODEL" (Some "gemini-2.0-flash") ]};
     "claude"%string :=
       {[ "api_key"%string := getenv environ "ANTHROPIC_API_KEY" (Some "");
          "model"%string :=
            getenv environ "ANTHROPIC_MODEL"
              (Some "claude-3-opus-20240229") ]};
     "openai"%string :=
       {[ "api_key"%string := getenv environ "OPENAI_API_KEY" (Some "");
          "model"%string := getenv environ "OPENAI_MODEL" (Some "gpt-4o");
          "base_url"%string := getenv environ "OPENAI_BASE_URL" None ]};
     "ollama"%string :=
       {[ "base_url"%string :=
            getenv environ "OLLAMA_BASE_URL"
              (Some "http://localhost:11434");
          "model"%string := getenv environ "OLLAMA_MODEL" (Some "llama3") ]};
     "groq"%string :=
       {[ "api_key"%string := getenv environ "GROQ_API_KEY" (Some "");
          "model"%string :=
            getenv environ "GROQ_MODEL" (Some "llama-3.3-70b-versatile");
          "base_url"%string := Some "https://api.groq.com/openai/v1" ]} ]}.

(** [get_provider_config]; the [ValueError] it raises is an [Exception]
    with the formatted message. *)
Definition get_provider_config (environ : gmap string string)
    (provider_name : string) : Outcome (gmap string (option string)) :=
  let configs := load_provider_configs environ in
  match configs !! provider_name with
  | None => Raise (Exception ("Unknown provider: " ++ provider_name))
  | Some c => Return c
  end.

(** The names [load_provider_configs] has an entry for. *)
Definition known_providers : list string :=
  ["gemini"; "claude"; "openai"; "ollama"; "groq"]%string.

End Configs.

(** ** The providers of ai_router.py, each behind its breaker *)

Module Providers.
Import Breaker Router.

Section WithVendor.

(** [V] is the state on the vendors' side. *)
Context {V : Type}.

(** What a provider class fixes: its name and lane, the model it was
    configured with, the configuration of the breaker its constructor
    makes, and the vendor request of its [analyze_code] (the prompt built
    from the arguments and the SDK call), which yields the text of the
    response or raises. *)
Record ProviderClass : Type := {
  p_name : string;
  p_lane : RoutingLane;
  p_model : PyVal;
  p_cb_config : CircuitBreakerConfig;
  vendor_request :
    gmap string string -> gmap string PyVal -> option string -> Op V PyVal
}.

(** The state behind the provider objects: the breaker each one owns,
    by provider name, as last left, and the world they call into. A
    provider that was not called yet has the breaker of its constructor. *)
Record Backend : Type := {
  breakers : gmap string CircuitBreaker;
  outside : World V
}.

Definition circuit_breaker (c : ProviderClass) (b : Backend)
  : CircuitBreaker :=
  default (Breaker.__init__ (p_name c) (Some (p_cb_config c)))
          (breakers b !! p_name c).

(** The inner [_call] of [analyze_code]. *)
Definition _call (c : ProviderClass) (codebase : gmap string string)
    (input_data : gmap string PyVal) (system_doc : option string)
  : Op V (gmap string PyVal) :=
  fun w =>
    match vendor_request c codebase input_data system_doc w with
    | (Return text, w') =>
        (Return {[ "success"%string := PyBool true;
                   "result"%string := text;
                   "provider"%string := PyStr (p_name c);
                   "model"%string := p_model c ]}, w')
    | (Raise e, w') => (Raise e, w')
    end.

(** [analyze_code]: [return await self.circuit_breaker.call(_call)] *)
Definition analyze_code_of (c : ProviderClass)
    (codebase : gmap string string) (input_data : gmap string PyVal)
    (system_doc : option string) (b : Backend)
  : Outcome (gmap string PyVal) * Backend :=
  let '(o, s') :=
    call (_call c codebase input_data system_doc)
         {| self := circuit_breaker c b; world := outside b |} in
  (o, {| breakers := <[p_name c := self s']> (breakers b);
         outside := world s' |}).

(** The provider object as the router sees it. *)
Definition provider_of (c : ProviderClass) : AIProvider Backend :=
  {| name := p_name c; provider_lane := p_lane c;
     analyze_code := analyze_code_of c |}.

(** The backend after [n] requests to one provider, one after the
    other. *)
Fixpoint after_requests (n : nat) (c : ProviderClass)
    (codebase : gmap string string) (input_data : gmap string PyVal)
    (system_doc : option string) (b : Backend) : Backend :=
  match n with
  | O => b
  | S k =>
      after_requests k c codebase input_data system_doc
        (snd (analyze_code_of c codebase input_data system_doc b))
  end.

(** The breaker configurations of the five provider classes. *)
Definition cb_config (failures : Z) : CircuitBreakerConfig :=
  {| failure_threshold := failures; success_threshold := 2;
     timeout := 60; window_size := 100 |}.

Definition OllamaProvider (model : PyVal) request : ProviderClass :=
  {| p_name := "ollama"; p_lane := FAST; p_model := model;
     p_cb_config := cb_config 3; vendor_request := request |}.


Definition GeminiProvider (model : PyVal) request : ProviderClass :=
  {| p_name := "gemini"; p_lane := FAST; p_model := model;
     p_cb_config := cb_config 5; vendor_request := request |}.

Definition ClaudeProvider (model : PyVal) request : ProviderClass :=
  {| p_name := "claude"; p_lane := SMART; p_model := model;
     p_cb_config := cb_config 3; vendor_request := request |}.

Definition OpenAIProvider (model : PyVal) request : ProviderClass :=
  {| p_name := "openai"; p_lane := FAST; p_model := model;
     p_cb_config := cb_config 5; vendor_request := request |}.

End WithVendor.

Arguments ProviderClass : clear implicits.
Arguments Backend : clear implicits.

(** A vendor that is down: every request raises, and is counted. *)
Definition vendor_down
  : gmap string string -> gmap string PyVal -> option string ->
    Op nat PyVal :=
  fun _ _ _ w => (Raise (Exception "Connection refused"), invoked w).

(** A vendor that answers every request, and counts it. *)
Definition vendor_up
  : gmap string string -> gmap string PyVal -> option string ->
    Op nat PyVal :=
  fun _ _ _ w => (Return (PyStr "Analysis complete"), invoked w).

(** A backend in which the breaker of "ollama" opened at time [t0] and
    the clock shows [now]. *)
Definition backend_ollama_open (t0 now : Z) : Backend nat :=
  {| breakers :=
       {[ "ollama"%string :=
            with_opened_at (Some t0)
              (with_state OPEN
                 (Breaker.__init__ "ollama" (Some (cb_config 3)))) ]};
     outside := world_at now |}.

(** A backend in which no provider was called yet, at time [t0]. *)
Definition new_backend (t0 : Z) : Backend nat :=
  {| breakers := ∅; outside := world_at t0 |}.

End Providers.

(** * Properties of the circuit breaker *)

Module BreakerProps.
Import Breaker.

(** Unfold one run of a method down to the field assignments. *)
Ltac exec :=
  cbv [after_call call call_guard _should_attempt_reset _on_success
       _on_failure _transition_to_open _transition_to_half_open
       _transition_to_closed history_append reset await time_time
       get_self assign raise try_except pure mbind mret Exec_bind
       Exec_ret];
  cbn [self world fst snd].

(** Decide the threshold tests left in the goal. *)
Ltac thresholds :=
  repeat match goal with
  | |- context [ (?a <=? ?b) ] =>
      destruct (Z.leb_spec a b); try lia; cbn [self world fst snd]
  end.

(** Case on what the awaited operation did. *)
Ltac run_op func :=
  match goal with
  | |- context [ func ?w ] =>
      let r := fresh "r" in let e := fresh "e" in let w' := fresh "w'" in
      destruct (func w) as [[r|e] w'] eqn:?; cbn [self world fst snd]
  end.

Section WithWorld.

Context {E : Type}.

Lemma call_keeps_config {T} (func : Op E T) (s : St E) :
  config (self (after_call func s)) = config (self s) /\
  provider_name (self (after_call func s)) = provider_name (self s).
Proof.
  destruct s as [[nm cfg st fc sc oa h] w]. exec.
  destruct st; simpl; [ | destruct oa as [t0|]; simpl | ].
  all: thresholds; simpl; try (split; reflexivity).
  all: run_op func; simpl; thresholds; simpl; split; reflexivity.
Qed.

(** *** One call, case by case *)

Lemma failure_while_closed_below {T} (func : Op E T) (s : St E) :
  _state (self s) = CLOSED -> fails func ->
  _failure_count (self s) + 1 < failure_threshold (config (self s)) ->
  _state (self (after_call func s)) = CLOSED /\
  _failure_count (self (after_call func s)) = _failure_count (self s) + 1.
Proof.
  destruct s as [[nm cfg st fc sc oa h] w]; simpl. intros -> Hf Hlt.
  exec; simpl. destruct (Hf w) as (e & w' & ->); simpl.
  thresholds. simpl. auto.
Qed.

Lemma failure_while_closed_reach {T} (func : Op E T) (s : St E) :
  _state (self s) = CLOSED -> fails func ->
  failure_threshold (config (self s)) <= _failure_count (self s) + 1 ->
  _state (self (after_call func s)) = OPEN /\
  _failure_count (self (after_call func s)) = 0 /\
  _success_count (self (after_call func s)) = 0 /\
  is_Some (_opened_at (self (after_call func s))).
Proof.
  destruct s as [[nm cfg st fc sc oa h] w]; simpl. intros -> Hf Hle.
  exec; simpl. destruct (Hf w) as (e & w' & ->); simpl.
  thresholds. simpl. eauto.
Qed.

Lemma success_while_closed {T} (func : Op E T) (s : St E) :
  _state (self s) = CLOSED -> succeeds func ->
  _state (self (after_call func s)) = CLOSED /\
  _failure_count (self (after_call func s)) = 0.
Proof.
  destruct s as [[nm cfg st fc sc oa h] w]; simpl. intros -> Hf.
  exec; simpl. destruct (Hf w) as (r & w' & ->); simpl. auto.
Qed.

Lemma success_while_half_open_below {T} (func : Op E T) (s : St E) :
  _state (self s) = HALF_OPEN -> succeeds func ->
  _success_count (self s) + 1 < success_threshold (config (self s)) ->
  _state (self (after_call func s)) = HALF_OPEN /\
  _success_count (self (after_call func s)) = _success_count (self s) + 1 /\
  _opened_at (self (after_call func s)) = _opened_at (self s).
Proof.
  destruct s as [[nm cfg st fc sc oa h] w]; simpl. intros -> Hf Hlt.
  exec; simpl. destruct (Hf w) as (r & w' & ->); simpl.
  thresholds. simpl. auto.
Qed.

Lemma success_while_half_open_reach {T} (func : Op E T) (s : St E) :
  _state (self s) = HALF_OPEN -> succeeds func ->
  success_threshold (config (self s)) <= _success_count (self s) + 1 ->
  _state (self (after_call func s)) = CLOSED /\
  _failure_count (self (after_call func s)) = 0 /\
  _success_count (self (after_call func s)) = 0 /\
  _opened_at (self (after_call func s)) = None.
Proof.
  destruct s as [[nm cfg st fc sc oa h] w]; simpl. intros -> Hf Hle.
  exec; simpl. destruct (Hf w) as (r & w' & ->); simpl.
  thresholds. simpl. auto.
Qed.

Lemma failure_while_half_open {T} (func : Op E T) (s : St E) :
  _state (self s) = HALF_OPEN -> fails func ->
  _state (self (after_call func s)) = OPEN /\
  _failure_count (self (after_call func s)) = 0 /\
  _success_count (self (after_call func s)) = 0 /\
  is_Some (_opened_at (self (after_call func s))).
Proof.
  destruct s as [[nm cfg st fc sc oa h] w]; simpl. intros -> Hf.
  exec; simpl. destruct (Hf w) as (e & w' & ->); simpl. eauto.
Qed.

(** An open breaker whose timeout has run out behaves, from the call on,
    as the half-open breaker one clock reading later. *)
Lemma call_open_expired {T} (func : Op E T) (cb : CircuitBreaker)
    (w : World E) (t0 : Z) :
  _state cb = OPEN -> _opened_at cb = Some t0 ->
  timeout (config cb) <= clock w (reads w) - t0 ->
  call func {| self := cb; world := w |} =
  call func {| self := half_opened cb; world := ticked 1 w |}.
Proof.
  destruct cb as [nm cfg st fc sc oa h]; simpl. intros -> -> Hle.
  exec; simpl. thresholds. reflexivity.
Qed.

(** A breaker that is not open passes the call on: the caller gets what
    the operation returned or raised, and the environment is the one the
    operation left. *)
Lemma call_runs_operation {T} (func : Op E T) (s : St E) :
  _state (self s) <> OPEN ->
  fst (call func s) = fst (func (world s)) /\
  env (world (snd (call func s))) = env (snd (func (world s))).
Proof.
  destruct s as [[nm cfg st fc sc oa h] w]; simpl. intros Hs.
  destruct st; try congruence; exec; simpl.
  all: run_op func; simpl; thresholds; simpl; auto.
Qed.

(** A refused call, whatever the second clock reading is. *)
Lemma call_refused {T} (func : Op E T) (cb : CircuitBreaker)
    (w : World E) (t0 : Z) :
  _state cb = OPEN -> _opened_at cb = Some t0 ->
  clock w (reads w) - t0 < timeout (config cb) ->
  call func {| self := cb; world := w |} =
  (Raise (CircuitBreakerError (provider_name cb)
            (Z.max 0 (timeout (config cb) - (clock w (S (reads w)) - t0)))),
   {| self := cb; world := ticked 2 w |}).
Proof.
  destruct cb as [nm cfg st fc sc oa h]; simpl. intros -> -> Hlt.
  exec; simpl. thresholds. reflexivity.
Qed.

(** *** Series of calls *)

Lemma after_calls_cons {T} (f : Op E T) (fs : list (Op E T)) (s : St E) :
  after_calls (f :: fs) s = after_calls fs (after_call f s).
Proof. reflexivity. Qed.

Lemma after_calls_snoc {T} (f : Op E T) (fs : list (Op E T)) (s : St E) :
  after_calls (fs ++ [f]) s = after_call f (after_calls fs s).
Proof. unfold after_calls. now rewrite fold_left_app. Qed.

Lemma failures_below_threshold {T} (fs : list (Op E T)) :
  forall s : St E,
  _state (self s) = CLOSED -> Forall fails fs ->
  _failure_count (self s) + Z.of_nat (length fs)
    < failure_threshold (config (self s)) ->
  _state (self (after_calls fs s)) = CLOSED /\
  _failure_count (self (after_calls fs s))
    = _failure_count (self s) + Z.of_nat (length fs) /\
  config (self (after_calls fs s)) = config (self s).
Proof.
  induction fs as [|f fs IH]; intros s Hst Hall Hlt.
  - simpl. repeat split; auto; lia.
  - inversion Hall as [|? ? Hf Hfs]; subst.
    rewrite after_calls_cons.
    change (length (f :: fs)) with (S (length fs)) in *.
    destruct (failure_while_closed_below f s Hst Hf) as [Hst' Hfc']; [lia|].
    destruct (call_keeps_config f s) as [Hcfg _].
    destruct (IH (after_call f s)) as (H1 & H2 & H3); auto.
    + rewrite Hfc', Hcfg. lia.
    + rewrite H1, H2, H3, Hfc', Hcfg. repeat split; try reflexivity; lia.
Qed.

Lemma successes_below_threshold {T} (fs : list (Op E T)) :
  forall s : St E,
  _state (self s) = HALF_OPEN -> Forall succeeds fs ->
  _success_count (self s) + Z.of_nat (length fs)
    < success_threshold (config (self s)) ->
  _state (self (after_calls fs s)) = HALF_OPEN /\
  _success_count (self (after_calls fs s))
    = _success_count (self s) + Z.of_nat (length fs) /\
  _opened_at (self (after_calls fs s)) = _opened_at (self s) /\
  config (self (after_calls fs s)) = config (self s).
Proof.
  induction fs as [|f fs IH]; intros s Hst Hall Hlt.
  - simpl. repeat split; auto; lia.
  - inversion Hall as [|? ? Hf Hfs]; subst.
    rewrite after_calls_cons.
    change (length (f :: fs)) with (S (length fs)) in *.
    destruct (success_while_half_open_below f s Hst Hf)
      as (Hst' & Hsc' & Hoa'); [lia|].
    destruct (call_keeps_config f s) as [Hcfg _].
    destruct (IH (after_call f s)) as (H1 & H2 & H3 & H4); auto.
    + rewrite Hsc', Hcfg. lia.
    + rewrite H1, H2, H3, H4, Hsc', Hoa', Hcfg. repeat split; try reflexivity; lia.
Qed.

Lemma after_calls_open_expired {T} (fs : list (Op E T))
    (cb : CircuitBreaker) (w : World E) (t0 : Z) :
  _state cb = OPEN -> _opened_at cb = Some t0 ->
  timeout (config cb) <= clock w (reads w) - t0 ->
  fs <> [] ->
  after_calls fs {| self := cb; world := w |} =
  after_calls fs {| self := half_opened cb; world := ticked 1 w |}.
Proof.
  intros Hst Hoa Hle Hne. destruct fs as [|f fs]; [congruence|].
  rewrite !after_calls_cons. unfold after_call.
  now rewrite (call_open_expired f cb w t0).
Qed.

(** *** The claims *)

(** C3. A closed breaker with failure counter 0 and failure threshold F:
    after n consecutive failed calls with n < F it is still closed and
    its failure counter is n; after the F-th consecutive failure (F >= 1)
    it is open and both counters are 0; and a successful call on a closed
    breaker leaves it closed with failure counter 0. *)
Theorem closed_failure_threshold {T} (cb : CircuitBreaker) (w : World E)
    (fs : list (Op E T)) :
  _state cb = CLOSED -> _failure_count cb = 0 -> Forall fails fs ->
  let F := failure_threshold (config cb) in
  let n := Z.of_nat (length fs) in
  let cb' := self (after_calls fs {| self := cb; world := w |}) in
  (n < F -> _state cb' = CLOSED /\ _failure_count cb' = n) /\
  (n = F -> 1 <= F ->
   _state cb' = OPEN /\ _failure_count cb' = 0 /\ _success_count cb' = 0) /\
  (forall (g : Op E T) (s : St E),
     _state (self s) = CLOSED -> succeeds g ->
     _state (self (after_call g s)) = CLOSED /\
     _failure_count (self (after_call g s)) = 0).
Proof.
  intros Hst Hfc Hall F n cb'. subst F n cb'. split; [|split].
  - intros Hlt.
    destruct (failures_below_threshold fs {| self := cb; world := w |})
      as (H1 & H2 & _); simpl; auto; [lia|].
    simpl in H2. split; [exact H1 | lia].
  - intros Heq HF.
    destruct fs as [|f0 fs0] using rev_ind; [simpl in Heq; lia|].
    clear IHfs0. apply Forall_app in Hall as [Hall Hlast].
    inversion Hlast as [|? ? Hf _]; subst.
    rewrite length_app in Heq. simpl in Heq.
    rewrite after_calls_snoc.
    destruct (failures_below_threshold fs0 {| self := cb; world := w |})
      as (H1 & H2 & H3); simpl; auto; [lia|].
    simpl in H2, H3.
    destruct (failure_while_closed_reach f0
                (after_calls fs0 {| self := cb; world := w |}))
      as (G1 & G2 & G3 & _); auto.
    rewrite H2, H3. lia.
  - intros g s Hs Hg. now apply success_while_closed.
Qed.

(** C4. An open breaker for which the elapsed time since [opened_at] is
    below the timeout, both when the guard tests it and when the error is
    built: the call raises CircuitBreakerError with the provider name and
    the remaining wait timeout - elapsed; the result does not depend on
    the operation, whose environment is untouched, and the breaker is
    exactly the one before the call. *)
Theorem open_call_blocked {T} (func : Op E T) (cb : CircuitBreaker)
    (w : World E) (t0 : Z) :
  _state cb = OPEN -> _opened_at cb = Some t0 ->
  clock w (reads w) - t0 < timeout (config cb) ->
  clock w (S (reads w)) - t0 < timeout (config cb) ->
  let elapsed := clock w (S (reads w)) - t0 in
  call func {| self := cb; world := w |} =
    (Raise (CircuitBreakerError (provider_name cb)
              (timeout (config cb) - elapsed)),
     {| self := cb; world := ticked 2 w |}) /\
  self (snd (call func {| self := cb; world := w |})) = cb /\
  env (world (snd (call func {| self := cb; world := w |}))) = env w.
Proof.
  intros Hst Hoa Hlt1 Hlt2 elapsed. subst elapsed.
  rewrite (call_refused func cb w t0 Hst Hoa Hlt1).
  rewrite Z.max_r by lia. auto.
Qed.

(** C5. An open breaker whose timeout has run out: the next call first
    moves it to half-open with success counter 0 and then runs the
    operation. From there, fewer than success_threshold consecutive
    successes keep it half-open and count them, keeping [opened_at];
    success_threshold consecutive successes close it, with both counters
    0 and [opened_at] cleared; and a failed call at any point before that
    opens it again with the success counter back to 0. *)
Theorem half_open_recovery {T} (cb : CircuitBreaker) (w : World E)
    (t0 : Z) (fs : list (Op E T)) (g : Op E T) :
  _state cb = OPEN -> _opened_at cb = Some t0 ->
  timeout (config cb) <= clock w (reads w) - t0 ->
  Forall succeeds fs -> fails g ->
  let threshold := success_threshold (config cb) in
  let n := Z.of_nat (length fs) in
  let s0 := {| self := cb; world := w |} in
  let half := {| self := half_opened cb; world := ticked 1 w |} in
  (_state (self half) = HALF_OPEN /\ _success_count (self half) = 0 /\
   forall func : Op E T,
     call func s0 = call func half /\
     fst (call func s0) = fst (func (ticked 1 w)) /\
     env (world (snd (call func s0))) = env (snd (func (ticked 1 w)))) /\
  (1 <= n < threshold ->
   _state (self (after_calls fs s0)) = HALF_OPEN /\
   _success_count (self (after_calls fs s0)) = n /\
   _opened_at (self (after_calls fs s0)) = Some t0) /\
  (1 <= n /\ n = threshold ->
   _state (self (after_calls fs s0)) = CLOSED /\
   _failure_count (self (after_calls fs s0)) = 0 /\
   _success_count (self (after_calls fs s0)) = 0 /\
   _opened_at (self (after_calls fs s0)) = None) /\
  (n < threshold ->
   _state (self (after_call g (after_calls fs s0))) = OPEN /\
   _success_count (self (after_call g (after_calls fs s0))) = 0 /\
   _failure_count (self (after_call g (after_calls fs s0))) = 0 /\
   is_Some (_opened_at (self (after_call g (after_calls fs s0))))).
Proof.
  intros Hst Hoa Hle Hall Hg threshold n s0 half.
  assert (Hhalf : _state (self half) = HALF_OPEN) by reflexivity.
  assert (Hcfg : config (self half) = config cb) by reflexivity.
  assert (Hsc : _success_count (self half) = 0) by reflexivity.
  assert (Hoa' : _opened_at (self half) = Some t0) by exact Hoa.
  assert (Hsame : forall hs : list (Op E T), hs <> [] ->
            after_calls hs s0 = after_calls hs half).
  { intros hs Hne. now apply (after_calls_open_expired hs cb w t0). }
  split; [|split; [|split]].
  - split; [exact Hhalf|]. split; [exact Hsc|]. intros func.
    assert (Heq : call func s0 = call func half)
      by now apply (call_open_expired func cb w t0).
    rewrite Heq. split; [reflexivity|].
    apply (call_runs_operation func half). rewrite Hhalf. discriminate.
  - intros [H1 Hlt]. rewrite Hsame by (intros ->; simpl in *; lia).
    destruct (successes_below_threshold fs half Hhalf Hall)
      as (G1 & G2 & G3 & _).
    + rewrite Hsc, Hcfg. fold n threshold. lia.
    + rewrite G1, G2, G3, Hsc, Hoa'. auto.
  - intros [H1 Heq]. subst n threshold.
    destruct fs as [|f0 fs0] using rev_ind; [simpl in H1; lia|].
    clear IHfs0. rewrite Hsame by (now destruct fs0).
    apply Forall_app in Hall as [Hall Hlast].
    inversion Hlast as [|? ? Hf _]; subst.
    rewrite length_app in Heq. simpl in Heq.
    rewrite after_calls_snoc.
    destruct (successes_below_threshold fs0 half Hhalf Hall)
      as (G1 & G2 & _ & G4).
    + rewrite Hsc, Hcfg. lia.
    + apply success_while_half_open_reach; auto.
      rewrite G2, G4, Hsc, Hcfg. lia.
  - intros Hlt. rewrite <- after_calls_snoc.
    rewrite Hsame by (now destruct fs). rewrite after_calls_snoc.
    destruct (successes_below_threshold fs half Hhalf Hall)
      as (G1 & _).
    + rewrite Hsc, Hcfg. fold n threshold. lia.
    + destruct (failure_while_half_open g (after_calls fs half) G1 Hg)
        as (F1 & F2 & F3 & F4). auto.
Qed.

(** C10. A call, whatever the operation does, and a reset keep
    [opened_at] absent exactly when the breaker is closed, and a new
    breaker starts that way. A breaker that is half-open after a call has
    the timestamp it had before the call, and a call clears the timestamp
    only when it closes a breaker that was not closed. *)
Theorem opened_at_invariant {T} (func : Op E T) (s : St E) :
  opened_at_inv (self s) ->
  let s' := after_call func s in
  opened_at_inv (self s') /\
  (_state (self s') = HALF_OPEN ->
   _opened_at (self s') = _opened_at (self s) /\
   is_Some (_opened_at (self s'))) /\
  (_opened_at (self s') = None ->
   _opened_at (self s) = None \/
   (_state (self s) <> CLOSED /\ _state (self s') = CLOSED)) /\
  opened_at_inv (self (snd (reset s))) /\
  (forall name cfg, opened_at_inv (__init__ name cfg)).
Proof.
  destruct s as [[nm cfg st fc sc oa h] w]. unfold opened_at_inv.
  simpl. intros Hinv.
  split; [|split; [|split; [|split]]].
  4,5: exec; simpl; intuition congruence.
  all: exec; simpl.
  all: destruct st, oa as [t0|]; simpl;
       try (exfalso; intuition congruence).
  all: thresholds; simpl;
       try (run_op func; simpl; thresholds; simpl);
       try (intuition (eauto || congruence)).
Qed.

End WithWorld.
End BreakerProps.

(** ** The circuit breaker on the stubs of the test-suite *)

Module BreakerExamples.
Import Breaker BreakerProps.

Lemma fail_func_fails : fails fail_func.
Proof. intros w. unfold fail_func. eauto. Qed.

Lemma success_func_succeeds : succeeds success_func.
Proof. intros w. unfold success_func. eauto. Qed.

(** Threshold 3: two failures leave the fixture closed with counter 2,
    the third opens it. *)
Lemma closed_failure_threshold_witness :
  let s0 := {| self := __init__ "test_provider" (Some test_config);
               world := world_at 0 |} in
  let cb2 := self (after_calls [fail_func; fail_func] s0) in
  let cb3 := self (after_calls [fail_func; fail_func; fail_func] s0) in
  (_state cb2 = CLOSED /\ _failure_count cb2 = 2) /\
  (_state cb3 = OPEN /\ _failure_count cb3 = 0 /\ _success_count cb3 = 0).
Proof.
  split.
  - destruct (closed_failure_threshold
                (__init__ "test_provider" (Some test_config)) (world_at 0)
                [fail_func; fail_func]) as (Hbelow & _ & _).
    + reflexivity.
    + reflexivity.
    + repeat constructor; apply fail_func_fails.
    + apply Hbelow. reflexivity.
  - destruct (closed_failure_threshold
                (__init__ "test_provider" (Some test_config)) (world_at 0)
                [fail_func; fail_func; fail_func]) as (_ & Hreach & _).
    + reflexivity.
    + reflexivity.
    + repeat constructor; apply fail_func_fails.
    + apply Hreach; [reflexivity | discriminate].
Defined.

(** Opened at 100 with timeout 5, called when the clock shows 102 and
    then 103: refused with 2 ticks left, and the stub was not counted. *)
Lemma open_call_blocked_witness :
  let s0 := {| self := opened_breaker 100; world := world_at 102 |} in
  call success_func s0 =
    (Raise (CircuitBreakerError "test_provider" 2),
     {| self := opened_breaker 100; world := ticked 2 (world_at 102) |}) /\
  self (snd (call success_func s0)) = opened_breaker 100 /\
  env (world (snd (call success_func s0))) = 0%nat.
Proof.
  apply (open_call_blocked success_func (opened_breaker 100)
           (world_at 102) 100); reflexivity.
Defined.

(** Opened at 100 with timeout 5 and success threshold 2, called when
    the clock shows 105: one success leaves it half-open, two close it,
    and a failure after the first success opens it again. *)
Lemma half_open_recovery_witness :
  let s0 := {| self := opened_breaker 100; world := world_at 105 |} in
  let s1 := after_calls [success_func] s0 in
  let s2 := after_calls [success_func; success_func] s0 in
  (_state (self s1) = HALF_OPEN /\ _success_count (self s1) = 1 /\
   _opened_at (self s1) = Some 100) /\
  (_state (self s2) = CLOSED /\ _failure_count (self s2) = 0 /\
   _success_count (self s2) = 0 /\ _opened_at (self s2) = None) /\
  (_state (self (after_call fail_func s1)) = OPEN /\
   _success_count (self (after_call fail_func s1)) = 0).
Proof.
  split; [|split].
  - destruct (half_open_recovery (opened_breaker 100) (world_at 105) 100
                [success_func] fail_func) as (_ & Hbelow & _ & _).
    + reflexivity.
    + reflexivity.
    + simpl. lia.
    + repeat constructor; apply success_func_succeeds.
    + apply fail_func_fails.
    + apply Hbelow. simpl. lia.
  - destruct (half_open_recovery (opened_breaker 100) (world_at 105) 100
                [success_func; success_func] fail_func)
      as (_ & _ & Hreach & _).
    + reflexivity.
    + reflexivity.
    + simpl. lia.
    + repeat constructor; apply success_func_succeeds.
    + apply fail_func_fails.
    + apply Hreach. simpl. lia.
  - destruct (half_open_recovery (opened_breaker 100) (world_at 105) 100
                [success_func] fail_func) as (_ & _ & _ & Hfail).
    + reflexivity.
    + reflexivity.
    + simpl. lia.
    + repeat constructor; apply success_func_succeeds.
    + apply fail_func_fails.
    + destruct Hfail as (H1 & H2 & _); [simpl; lia | auto].
Defined.

(** The opened fixture satisfies the invariant, and so does what a
    successful trial call makes of it. *)
Lemma opened_at_invariant_witness :
  let s0 := {| self := opened_breaker 100; world := world_at 105 |} in
  opened_at_inv (self s0) /\
  opened_at_inv (self (after_call success_func s0)) /\
  _opened_at (self (after_call success_func s0)) = Some 100.
Proof.
  assert (Hinv : opened_at_inv (opened_breaker 100))
    by (split; discriminate).
  split; [exact Hinv|].
  destruct (opened_at_invariant success_func
              {| self := opened_breaker 100; world := world_at 105 |} Hinv)
    as (Hkept & Hhalf & _).
  split; [exact Hkept|].
  destruct Hhalf as [Heq _]; [reflexivity | exact Heq].
Defined.

End BreakerExamples.

(** * Properties of the router *)

Module RouterProps.
Import Router.

Ltac outcome := cbv [mbind mret Outcome_bind Outcome_ret first]; cbn beta iota.

Section WithEnv.

Context {E : Type}.

Lemma find_local_first (before after : list (AIProvider E))
    (p : AIProvider E) :
  Forall (fun q => name q <> "ollama"%string) before ->
  name p = "ollama"%string ->
  find_local (before ++ p :: after) = Some p.
Proof.
  intros Hbefore Hp. induction Hbefore as [|q before Hq _ IH]; simpl.
  - rewrite Hp. reflexivity.
  - destruct (String.eqb_spec (name q) "ollama"); [contradiction | exact IH].
Qed.

Lemma find_local_absent (providers : list (AIProvider E)) :
  Forall (fun q => name q <> "ollama"%string) providers ->
  find_local providers = None.
Proof.
  intros Hall. induction Hall as [|q rest Hq _ IH]; simpl; [reflexivity|].
  destruct (String.eqb_spec (name q) "ollama"); [contradiction | exact IH].
Qed.

(** C6. When the total size of the codebase exceeds 100,000, the decision
    is the first smart-lane provider, in the smart lane, for the reason
    "Large context size requires SMART lane" (which mentions the
    context), whatever the input data (vision flag) and the user intent
    are, the intent --cheap included. *)
Theorem large_context_routes_smart (r : CortexRouter E)
    (codebase : gmap string string) (input_data : gmap string PyVal)
    (system_doc user_intent : option string)
    (p : AIProvider E) (rest : list (AIProvider E)) :
  100000 < total_tokens codebase ->
  smart_lane r = p :: rest ->
  let d := {| provider := p; lane := SMART;
              reason := "Large context size requires SMART lane" |} in
  route_analysis r codebase input_data system_doc user_intent = Return d /\
  route_analysis r codebase input_data system_doc (Some "--cheap"%string)
    = Return d /\
  contains "context" (lower (reason d)) = true.
Proof.
  intros Hbig Hsmart d. unfold route_analysis.
  destruct (Z.ltb_spec 100000 (total_tokens codebase)); [|lia].
  rewrite Hsmart. outcome. auto.
Qed.

(** C7. With at most 100,000 units of codebase, no vision flag and the
    intent --local: when the fast lane has a provider named "ollama", the
    decision is the first such provider, in the fast lane, for the reason
    "User requested local provider"; when it has none, the decision is
    the first fast-lane provider for the reason "Default FAST lane". *)
Theorem local_intent_routes_local_or_default (r : CortexRouter E)
    (codebase : gmap string string) (input_data : gmap string PyVal)
    (system_doc : option string) :
  total_tokens codebase <= 100000 ->
  truthy (dict_get input_data "has_vision") = false ->
  let decide_local :=
    route_analysis r codebase input_data system_doc (Some "--local"%string)
  in
  (forall before p after,
     fast_lane r = before ++ p :: after ->
     Forall (fun q => name q <> "ollama"%string) before ->
     name p = "ollama"%string ->
     decide_local =
       Return {| provider := p; lane := FAST;
                 reason := "User requested local provider" |} /\
     lower "User requested local provider" =
       "user requested local provider"%string) /\
  (forall p rest,
     fast_lane r = p :: rest ->
     Forall (fun q => name q <> "ollama"%string) (fast_lane r) ->
     decide_local =
       Return {| provider := p; lane := FAST;
                 reason := "Default FAST lane" |}).
Proof.
  intros Hsize Hvision decide_local. subst decide_local.
  unfold route_analysis.
  destruct (Z.ltb_spec 100000 (total_tokens codebase)); [lia|].
  rewrite Hvision.
  destruct (decide (Some "--local"%string = Some "--strong"%string));
    [discriminate|].
  destruct (decide (Some "--local"%string = Some "--local"%string));
    [|congruence].
  split.
  - intros before p after Hlane Hbefore Hp.
    rewrite Hlane, (find_local_first before after p Hbefore Hp).
    outcome. auto.
  - intros p rest Hlane Hnone.
    rewrite (find_local_absent _ Hnone).
    destruct (decide (Some "--local"%string = Some "--cheap"%string));
      [discriminate|].
    rewrite Hlane. outcome. reflexivity.
Qed.

(** C8. With exactly 100,000 units of codebase the size test
    [total_tokens > 100000] is false and no decision, for any input data
    and intent, gives the large context as its reason; without a vision
    flag and with an intent that is none of --strong, --local, --cheap,
    the decision is the first fast-lane provider for the reason
    "Default FAST lane". *)
Theorem exact_threshold_routes_default (r : CortexRouter E)
    (codebase : gmap string string) (input_data : gmap string PyVal)
    (system_doc user_intent : option string)
    (p : AIProvider E) (rest : list (AIProvider E)) :
  total_tokens codebase = 100000 ->
  truthy (dict_get input_data "has_vision") = false ->
  user_intent <> Some "--strong"%string ->
  user_intent <> Some "--local"%string ->
  user_intent <> Some "--cheap"%string ->
  fast_lane r = p :: rest ->
  (100000 <? total_tokens codebase) = false /\
  (forall input_data' user_intent' d,
     route_analysis r codebase input_data' system_doc user_intent'
       = Return d ->
     reason d <> "Large context size requires SMART lane"%string) /\
  route_analysis r codebase input_data system_doc user_intent =
    Return {| provider := p; lane := FAST; reason := "Default FAST lane" |}.
Proof.
  intros Hsize Hvision Hstrong Hlocal Hcheap Hlane.
  assert (Htest : (100000 <? total_tokens codebase) = false)
    by (rewrite Hsize; reflexivity).
  split; [exact Htest|]. split.
  - intros input_data' user_intent' d. unfold route_analysis.
    rewrite Htest.
    generalize (find_local (fast_lane r)) as local. intros local.
    destruct (smart_lane r) as [|sp srest], (fast_lane r) as [|fp frest],
      (truthy (dict_get input_data' "has_vision")),
      (decide (user_intent' = Some "--strong"%string)),
      (decide (user_intent' = Some "--local"%string)),
      (decide (user_intent' = Some "--cheap"%string)),
      local as [lp|];
      outcome; intros [= <-]; discriminate.
  - unfold route_analysis. rewrite Htest, Hvision.
    destruct (decide (user_intent = Some "--strong"%string));
      [contradiction|].
    destruct (decide (user_intent = Some "--local"%string));
      [contradiction|].
    destruct (decide (user_intent = Some "--cheap"%string));
      [contradiction|].
    rewrite Hlane. outcome. reflexivity.
Qed.

(** *** The two loops of [analyze_with_fallback] *)

(** The primary loop has no handler: what its first provider raises is
    raised by the loop, after that single await. *)
Lemma primary_loop_propagates (codebase : gmap string string)
    (input_data : gmap string PyVal) (system_doc : option string)
    (p : AIProvider E) (rest : list (AIProvider E)) (w : RWorld E)
    (e : exn) (env' : E) :
  analyze_code p codebase input_data system_doc (env w) = (Raise e, env') ->
  primary_loop codebase input_data system_doc (p :: rest) w =
  (Raise e, {| env := env'; awaited := awaited w ++ [name p] |}).
Proof.
  intros Hp. simpl. unfold mbind, Exec_bind, await_analyze_code.
  rewrite Hp. reflexivity.
Qed.

(** The primary loop awaits a provider whose answer is valid a second
    time, and returns what that second await yields. *)
Lemma primary_loop_awaits_twice (codebase : gmap string string)
    (input_data : gmap string PyVal) (system_doc : option string)
    (p : AIProvider E) (rest : list (AIProvider E)) (w : RWorld E)
    (checked : gmap string PyVal) (env' : E) :
  analyze_code p codebase input_data system_doc (env w)
    = (Return checked, env') ->
  truthy (_validate_result checked) = true ->
  primary_loop codebase input_data system_doc (p :: rest) w =
  let '(o, env'') :=
    analyze_code p codebase input_data system_doc env' in
  (match o with Return r => Return (Some r) | Raise e => Raise e end,
   {| env := env''; awaited := awaited w ++ [name p; name p] |}).
Proof.
  intros Hp Hvalid. simpl. unfold mbind, Exec_bind, await_analyze_code.
  rewrite Hp, Hvalid. simpl.
  destruct (analyze_code p codebase input_data system_doc env')
    as [[r|e] env'']; rewrite <- app_assoc; reflexivity.
Qed.


End WithEnv.

(** C1 (evaluation). The first fast-lane provider raises, every other
    provider would answer with a valid result, and the request is routed
    to the fast lane by default: the error of that provider, be it an
    [Exception] or a [CircuitBreakerError], is what the caller gets, and
    no other provider was awaited. *)
Theorem primary_lane_error_reaches_caller :
  analyze_with_fallback test_codebase test_input None
    (router_first_raises (Exception "Failed")) None (fresh tt)
  = (Raise (Exception "Failed"),
     {| env := tt; awaited := ["ollama"%string] |}) /\
  analyze_with_fallback test_codebase test_input None
    (router_first_raises (CircuitBreakerError "ollama" 30)) None (fresh tt)
  = (Raise (CircuitBreakerError "ollama" 30),
     {| env := tt; awaited := ["ollama"%string] |}).
Proof. split; vm_compute; reflexivity. Qed.

(** C2 (evaluation). The first fast-lane provider answers with a valid
    result: its [analyze_code] is awaited twice, and the providers after
    it not at all. When the provider answers only once, the validated
    answer is lost and the caller gets the error of the second await. *)
Theorem primary_lane_success_awaited_twice :
  (let '(o, w) :=
     analyze_with_fallback test_codebase test_input None
       router_all_valid None (fresh tt) in
   o = Return (valid_result "ollama") /\
   awaited w = ["ollama"; "ollama"]%string /\
   call_count "ollama" w = 2%nat /\
   call_count "groq" w = 0%nat) /\
  analyze_with_fallback test_codebase test_input None
    router_first_answers_once None (fresh 0%nat)
  = (Raise (Exception "Rate limited"),
     {| env := 2%nat; awaited := ["ollama"; "ollama"]%string |}).
Proof. split; vm_compute; auto. Qed.

(** C9. The validator's answer is true exactly when the result has the
    keys 'success' and 'result' and the value under 'success' is true;
    the value under 'result' plays no part: replacing it by any other
    value leaves the answer as it was, and a result whose payload is
    None, the empty string or the empty list is accepted. *)
Theorem validate_result_checks_keys_and_flag (result : gmap string PyVal) :
  (truthy (_validate_result result) = true <->
   is_Some (result !! "success"%string) /\
   is_Some (result !! "result"%string) /\
   truthy (dict_get result "success") = true) /\
  (forall v v' : PyVal,
     _validate_result (<["result"%string := v]> result) =
     _validate_result (<["result"%string := v']> result)) /\
  truthy (_validate_result
            {[ "success"%string := PyBool true;
               "result"%string := PyNone ]}) = true /\
  truthy (_validate_result
            {[ "success"%string := PyBool true;
               "result"%string := PyStr "" ]}) = true /\
  truthy (_validate_result
            {[ "success"%string := PyBool true;
               "result"%string := PyList [] ]}) = true.
Proof.
  split; [|split; [|repeat split]].
  - unfold _validate_result, dict_in. simpl.
    destruct (bool_decide_reflect (is_Some (result !! "success"%string)));
    destruct (bool_decide_reflect (is_Some (result !! "result"%string)));
      simpl; intuition discriminate.
  - intros v v'. unfold _validate_result, dict_in, dict_get. simpl.
    rewrite !lookup_insert_eq.
    rewrite !(lookup_insert_ne _ "result"%string "success"%string)
      by discriminate.
    rewrite (bool_decide_eq_true_2 (is_Some (Some v))) by eauto.
    rewrite (bool_decide_eq_true_2 (is_Some (Some v'))) by eauto.
    reflexivity.
Qed.

(** ** The routing decision on the routers of the test-suite *)

(** 150,000 characters with the intent --cheap: the smart lane. *)
Lemma large_context_routes_smart_witness :
  let d := {| provider := mock_returning "claude" SMART
                            (valid_result "claude");
              lane := SMART;
              reason := "Large context size requires SMART lane" |} in
  100000 < total_tokens (codebase_of_size 150000) /\
  route_analysis router_all_valid (codebase_of_size 150000) test_input
    None (Some "--cheap"%string) = Return d.
Proof.
  assert (Hbig : 100000 < total_tokens (codebase_of_size 150000))
    by (vm_compute; reflexivity).
  split; [exact Hbig|].
  apply (large_context_routes_smart router_all_valid
           (codebase_of_size 150000) test_input None
           (Some "--cheap"%string)
           (mock_returning "claude" SMART (valid_result "claude"))
           [mock_returning "openai" FAST (valid_result "openai")]
           Hbig eq_refl).
Defined.

(** --local with and without a provider named "ollama". *)
Lemma local_intent_routes_local_or_default_witness :
  route_analysis router_all_valid test_codebase test_input None
    (Some "--local"%string)
  = Return {| provider := mock_returning "ollama" FAST
                            (valid_result "ollama");
              lane := FAST;
              reason := "User requested local provider" |} /\
  route_analysis router_without_local test_codebase test_input None
    (Some "--local"%string)
  = Return {| provider := mock_returning "groq" FAST (valid_result "groq");
              lane := FAST;
              reason := "Default FAST lane" |}.
Proof.
  split.
  - destruct (local_intent_routes_local_or_default router_all_valid
                test_codebase test_input None) as [Hlocal _].
    + vm_compute. discriminate.
    + reflexivity.
    + apply (Hlocal [] (mock_returning "ollama" FAST (valid_result "ollama"))
               [mock_returning "groq" FAST (valid_result "groq");
                mock_returning "gemini" FAST (valid_result "gemini")]).
      * reflexivity.
      * constructor.
      * reflexivity.
  - destruct (local_intent_routes_local_or_default router_without_local
                test_codebase test_input None) as [_ Hdefault].
    + vm_compute. discriminate.
    + reflexivity.
    + apply (Hdefault (mock_returning "groq" FAST (valid_result "groq"))
               [mock_returning "gemini" FAST (valid_result "gemini")]).
      * reflexivity.
      * repeat constructor; discriminate.
Defined.

(** Exactly 100,000 characters, no vision flag, no intent: the default. *)
Lemma exact_threshold_routes_default_witness :
  total_tokens (codebase_of_size 100000) = 100000 /\
  route_analysis router_all_valid (codebase_of_size 100000) test_input
    None None
  = Return {| provider := mock_returning "ollama" FAST
                            (valid_result "ollama");
              lane := FAST; reason := "Default FAST lane" |}.
Proof.
  assert (Hsize : total_tokens (codebase_of_size 100000) = 100000)
    by (vm_compute; reflexivity).
  split; [exact Hsize|].
  apply (exact_threshold_routes_default router_all_valid
           (codebase_of_size 100000) test_input None None
           (mock_returning "ollama" FAST (valid_result "ollama"))
           [mock_returning "groq" FAST (valid_result "groq");
            mock_returning "gemini" FAST (valid_result "gemini")]);
    (reflexivity || discriminate).
Defined.

End RouterProps.

(** * Further properties of the circuit breaker *)

Module BreakerExtra.
Import Breaker BreakerProps.

Lemma deque_append_length (maxlen : nat) (h : list bool) (x : bool) :
  length (deque_append maxlen h x) = Nat.min (S (length h)) maxlen.
Proof.
  unfold deque_append. rewrite length_drop, length_app.
  change (length [x]) with 1%nat. lia.
Qed.

Section WithWorld.

Context {E : Type}.

(** X1. The call history stays within its window: a breaker whose
    history is no longer than [window_size] keeps that property through
    any call; a reset and the constructor establish it. *)
Theorem history_window_bounded {T} (func : Op E T) (s : St E) :
  history_inv (self s) ->
  history_inv (self (after_call func s)) /\
  history_inv (self (snd (reset s))) /\
  (forall name cfg, history_inv (__init__ name cfg)).
Proof.
  destruct s as [[nm cfg st fc sc oa h] w]. unfold history_inv. simpl.
  intros Hinv. split; [|split].
  - exec; simpl.
    destruct st; simpl; [ | destruct oa as [t0|]; simpl | ].
    all: thresholds; simpl; try exact Hinv.
    all: run_op func; simpl; thresholds; simpl.
    all: rewrite deque_append_length; lia.
  - exec; simpl. lia.
  - intros name cfg'. simpl. lia.
Qed.


(** X3. The history is only observed, never consulted: two breakers that
    differ in their history alone give the same outcome, leave the same
    world and agree on every other field after a call. *)
Theorem history_is_observational {T} (func : Op E T)
    (cb : CircuitBreaker) (h : list bool) (w : World E) :
  let r1 := call func {| self := cb; world := w |} in
  let r2 := call func {| self := with_call_history h cb; world := w |} in
  fst r1 = fst r2 /\
  world (snd r1) = world (snd r2) /\
  with_call_history [] (self (snd r1)) =
  with_call_history [] (self (snd r2)).
Proof.
  destruct cb as [nm cfg st fc sc oa h0]. exec; simpl.
  destruct st; simpl; [ | destruct oa as [t0|]; simpl | ].
  all: thresholds; simpl; auto.
  all: run_op func; simpl; thresholds; simpl; auto.
Qed.

(** A reset gives back the breaker the constructor made for the same
    provider and configuration, whatever state it was in, and touches
    nothing else. *)
Theorem reset_restores_initial (s : St E) :
  reset s =
  (Return tt,
   {| self := __init__ (provider_name (self s)) (Some (config (self s)));
      world := world s |}).
Proof. destruct s as [[nm cfg st fc sc oa h] w]. reflexivity. Qed.

(** X4. An open breaker that has no opening timestamp never tries to
    recover: every call is refused, whatever the clock shows, with the
    wait computed as if it had opened at time 0, and the breaker stays as
    it is through any series of calls. *)
Theorem open_without_timestamp_is_stuck {T} (cb : CircuitBreaker)
    (w : World E) (func : Op E T) (funcs : list (Op E T)) :
  _state cb = OPEN -> _opened_at cb = None ->
  call func {| self := cb; world := w |} =
    (Raise (CircuitBreakerError (provider_name cb)
              (Z.max 0 (timeout (config cb) - clock w (reads w)))),
     {| self := cb; world := ticked 1 w |}) /\
  self (after_calls funcs {| self := cb; world := w |}) = cb /\
  env (world (after_calls funcs {| self := cb; world := w |})) = env w.
Proof.
  intros Hst Hoa.
  assert (Hone : forall (f : Op E T) (w0 : World E),
            call f {| self := cb; world := w0 |} =
            (Raise (CircuitBreakerError (provider_name cb)
                      (Z.max 0 (timeout (config cb) - clock w0 (reads w0)))),
             {| self := cb; world := ticked 1 w0 |})).
  { intros f w0. destruct cb as [nm cfg st fc sc oa h]. simpl in *.
    subst. exec; simpl. rewrite Z.sub_0_r. reflexivity. }
  split; [apply Hone|].
  revert w. induction funcs as [|f funcs IH]; intros w; [auto|].
  rewrite after_calls_cons. unfold after_call. rewrite Hone. simpl.
  destruct (IH (ticked 1 w)) as [H1 H2]. auto.
Qed.

(** X5. The counters stay in range: none is ever negative, an open
    breaker has both at 0, a closed breaker's failure counter is below
    the failure threshold and a half-open breaker's success counter below
    the success threshold. Calls and resets keep this, and the
    constructor establishes it. *)
Theorem counters_invariant {T} (func : Op E T) (s : St E) :
  counters_inv (self s) ->
  counters_inv (self (after_call func s)) /\
  counters_inv (self (snd (reset s))) /\
  (forall name cfg, counters_inv (__init__ name cfg)).
Proof.
  destruct s as [[nm cfg st fc sc oa h] w]. unfold counters_inv. simpl.
  intros (Hfc & Hsc & Hst). split; [|split].
  - exec; simpl.
    destruct st; simpl; [ | destruct oa as [t0|]; simpl | ].
    all: thresholds; simpl; try (repeat split; lia).
    all: run_op func; simpl; thresholds; simpl; repeat split; lia.
  - exec; simpl. repeat split; lia.
  - intros name cfg'. simpl. repeat split; lia.
Qed.

(** X6. Only consecutive failures open the breaker: two runs of failed
    calls, each shorter than the failure threshold, with one successful
    call between them leave a closed breaker closed, and its failure
    counter holds the length of the second run only. *)
Theorem success_interrupts_failure_run {T} (cb : CircuitBreaker)
    (w : World E) (fs1 fs2 : list (Op E T)) (g : Op E T) :
  _state cb = CLOSED -> _failure_count cb = 0 ->
  Forall fails fs1 -> succeeds g -> Forall fails fs2 ->
  Z.of_nat (length fs1) < failure_threshold (config cb) ->
  Z.of_nat (length fs2) < failure_threshold (config cb) ->
  let cb' :=
    self (after_calls (fs1 ++ g :: fs2) {| self := cb; world := w |}) in
  _state cb' = CLOSED /\ _failure_count cb' = Z.of_nat (length fs2).
Proof.
  intros Hst Hfc H1 Hg H2 Hlt1 Hlt2 cb'. subst cb'.
  unfold after_calls. rewrite fold_left_app. simpl.
  fold (after_calls fs1 {| self := cb; world := w |}).
  set (s1 := after_calls fs1 {| self := cb; world := w |}).
  destruct (failures_below_threshold fs1 {| self := cb; world := w |})
    as (A1 & A2 & A3); simpl; auto; [lia|]. fold s1 in A1, A2, A3.
  destruct (success_while_closed g s1 A1 Hg) as [B1 B2].
  destruct (call_keeps_config g s1) as [B3 _].
  fold (after_calls fs2 (after_call g s1)).
  destruct (failures_below_threshold fs2 (after_call g s1))
    as (C1 & C2 & _); auto.
  - rewrite B2, B3, A3. simpl. lia.
  - rewrite C1, C2, B2. split; [reflexivity | lia].
Qed.

(** X7. The remaining wait a refused call reports is never negative, and
    it is at most the timeout when the clock has not gone back behind the
    opening time. *)
Theorem retry_after_bounds {T} (func : Op E T) (cb : CircuitBreaker)
    (w : World E) (t0 : Z) :
  _state cb = OPEN -> _opened_at cb = Some t0 ->
  clock w (reads w) - t0 < timeout (config cb) ->
  exists retry_after,
    fst (call func {| self := cb; world := w |}) =
      Raise (CircuitBreakerError (provider_name cb) retry_after) /\
    0 <= retry_after /\
    (t0 <= clock w (S (reads w)) -> 0 <= timeout (config cb) ->
     retry_after <= timeout (config cb)).
Proof.
  intros Hst Hoa Hlt. rewrite (call_refused func cb w t0 Hst Hoa Hlt).
  eexists. split; [reflexivity|]. split; lia.
Qed.

Lemma after_calls_keeps_config {T} (funcs : list (Op E T)) :
  forall s : St E,
  config (self (after_calls funcs s)) = config (self s) /\
  provider_name (self (after_calls funcs s)) = provider_name (self s).
Proof.
  induction funcs as [|f funcs IH]; intros s; [auto|].
  rewrite after_calls_cons.
  destruct (IH (after_call f s)) as [I1 I2].
  destruct (call_keeps_config f s) as [K1 K2].
  rewrite I1, I2, K1, K2. auto.
Qed.

Lemma failures_open {T} (fs : list (Op E T)) (s : St E) :
  _state (self s) = CLOSED -> _failure_count (self s) = 0 ->
  Forall fails fs ->
  1 <= failure_threshold (config (self s)) ->
  Z.of_nat (length fs) = failure_threshold (config (self s)) ->
  _state (self (after_calls fs s)) = OPEN /\
  _failure_count (self (after_calls fs s)) = 0 /\
  _success_count (self (after_calls fs s)) = 0 /\
  is_Some (_opened_at (self (after_calls fs s))).
Proof.
  intros Hst Hfc Hall HF Heq.
  destruct fs as [|f0 fs0] using rev_ind; [simpl in Heq; lia|].
  clear IHfs0. apply Forall_app in Hall as [Hall Hlast].
  inversion Hlast as [|? ? Hf _]; subst.
  rewrite length_app in Heq. simpl in Heq.
  rewrite after_calls_snoc.
  destruct (failures_below_threshold fs0 s) as (H1 & H2 & H3); auto;
    [lia|].
  apply failure_while_closed_reach; auto. rewrite H2, H3. lia.
Qed.

Lemma successes_close {T} (gs : list (Op E T)) (s : St E) :
  _state (self s) = HALF_OPEN -> _success_count (self s) = 0 ->
  Forall succeeds gs ->
  1 <= success_threshold (config (self s)) ->
  Z.of_nat (length gs) = success_threshold (config (self s)) ->
  _state (self (after_calls gs s)) = CLOSED /\
  _failure_count (self (after_calls gs s)) = 0 /\
  _success_count (self (after_calls gs s)) = 0 /\
  _opened_at (self (after_calls gs s)) = None.
Proof.
  intros Hst Hsc Hall HS Heq.
  destruct gs as [|g0 gs0] using rev_ind; [simpl in Heq; lia|].
  clear IHgs0. apply Forall_app in Hall as [Hall Hlast].
  inversion Hlast as [|? ? Hg _]; subst.
  rewrite length_app in Heq. simpl in Heq.
  rewrite after_calls_snoc.
  destruct (successes_below_threshold gs0 s) as (H1 & H2 & _ & H4); auto;
    [lia|].
  apply success_while_half_open_reach; auto. rewrite H2, H4. lia.
Qed.

(** X8. A full round: a new breaker that is opened by failure_threshold
    consecutive failures, left alone until its timeout has run out and
    then given success_threshold consecutive successes is again the
    breaker the constructor made, except for the history it has
    gathered. *)
Theorem recovery_restores_initial_state {T} (name : string)
    (cfg : CircuitBreakerConfig) (w : World E)
    (fs gs : list (Op E T)) :
  Forall fails fs -> Forall succeeds gs ->
  1 <= failure_threshold cfg -> 1 <= success_threshold cfg ->
  Z.of_nat (length fs) = failure_threshold cfg ->
  Z.of_nat (length gs) = success_threshold cfg ->
  let opened :=
    after_calls fs {| self := __init__ name (Some cfg); world := w |} in
  (forall t, _opened_at (self opened) = Some t ->
     timeout cfg <= clock (world opened) (reads (world opened)) - t) ->
  _state (self opened) = OPEN /\
  with_call_history [] (self (after_calls gs opened)) =
  __init__ name (Some cfg).
Proof.
  intros Hfs Hgs HF HS Hnf Hng opened Hwait.
  set (s0 := {| self := __init__ name (Some cfg); world := w |}) in *.
  destruct (after_calls_keeps_config fs s0) as [Hcfg Hname].
  fold opened in Hcfg, Hname. simpl in Hcfg, Hname.
  destruct (failures_open fs s0) as (O1 & O2 & O3 & [t Ht]); auto.
  fold opened in O1, O2, O3, Ht.
  split; [exact O1|].
  specialize (Hwait t Ht).
  assert (Hne : gs <> []) by (intros ->; simpl in Hng; lia).
  destruct opened as [cbo wo] eqn:Hopened. simpl in *.
  rewrite (after_calls_open_expired gs cbo wo t O1 Ht) by
    (rewrite ?Hcfg; auto).
  set (half := {| self := half_opened cbo; world := ticked 1 wo |}).
  destruct (after_calls_keeps_config gs half) as [Hcfg' Hname'].
  simpl in Hcfg', Hname'.
  destruct (successes_close gs half) as (C1 & C2 & C3 & C4); simpl;
    try rewrite Hcfg; auto.
  destruct (self (after_calls gs half)) as [nm' cfg' st' fc' sc' oa' h'].
  simpl in *. subst. reflexivity.
Qed.

(** X9. Trimming the history never raises: it keeps the newest
    [window_size] entries, leaves every other field alone, and changes
    nothing at all when the history is within its window. *)
Theorem trim_history_keeps_newest (s : St E) :
  let cb := self s in
  let excess :=
    (length (_call_history cb) - window_size (config cb))%nat in
  _trim_history s =
    (Return tt,
     {| self := with_call_history (drop excess (_call_history cb)) cb;
        world := world s |}) /\
  history_inv (self (snd (_trim_history s))) /\
  (history_inv cb -> _trim_history s = (Return tt, s)).
Proof.
  assert (Hloop : forall (n : nat) (cb : CircuitBreaker) (w : World E),
            (n <= length (_call_history cb))%nat ->
            for_range n popleft {| self := cb; world := w |} =
            (Return tt,
             {| self := with_call_history (drop n (_call_history cb)) cb;
                world := w |})).
  { induction n as [|n IH]; intros cb w Hn.
    - destruct cb; reflexivity.
    - destruct cb as [nm cfg st fc sc oa h]. simpl in Hn.
      destruct h as [|x h]; [simpl in Hn; lia|].
      cbn [for_range]. unfold mbind, Exec_bind, popleft at 1.
      unfold get_self, assign, mbind, Exec_bind. simpl.
      rewrite IH by (simpl in *; lia). reflexivity. }
  destruct s as [cb w]. cbn zeta. simpl self. simpl world.
  unfold _trim_history, get_self, mbind, Exec_bind. simpl.
  destruct (Nat.ltb_spec (window_size (config cb))
              (length (_call_history cb))) as [Hlt|Hge].
  - rewrite Hloop by lia. split; [reflexivity|]. split.
    + unfold history_inv. simpl. rewrite length_drop. lia.
    + unfold history_inv. lia.
  - replace (length (_call_history cb) - window_size (config cb))%nat
      with 0%nat by lia.
    destruct cb as [nm cfg st fc sc oa h]. simpl in *.
    split; [reflexivity|]. split; [exact Hge | reflexivity].
Qed.


End WithWorld.
End BreakerExtra.

(** * Further properties of the router *)

Module RouterExtra.
Import Router RouterProps.

Ltac run_exec :=
  cbv [mbind mret Exec_bind Exec_ret try_except await_analyze_code pure
       raise]; cbn beta iota.

Section WithEnv.

Context {E : Type}.

Lemma find_local_in (providers : list (AIProvider E)) (p : AIProvider E) :
  find_local providers = Some p -> In p providers.
Proof.
  induction providers as [|q rest IH]; simpl; [discriminate|].
  destruct (String.eqb (name q) "ollama").
  - intros [= ->]. now left.
  - intros H. right. now apply IH.
Qed.

(** Every way [route_analysis] can end, with the tests that lead there
    replaced by their outcomes. *)
Lemma route_analysis_cases (r : CortexRouter E)
    (codebase : gmap string string) (input_data : gmap string PyVal)
    (system_doc user_intent : option string) :
  let smart reason_ :=
    match smart_lane r with
    | [] => Raise IndexError
    | p :: _ => Return {| provider := p; lane := SMART; reason := reason_ |}
    end in
  let fast reason_ :=
    match fast_lane r with
    | [] => Raise IndexError
    | p :: _ => Return {| provider := p; lane := FAST; reason := reason_ |}
    end in
  route_analysis r codebase input_data system_doc user_intent =
  if 100000 <? total_tokens codebase
  then smart "Large context size requires SMART lane"%string
  else if truthy (dict_get input_data "has_vision")
  then smart "Vision capabilities required"%string
  else if decide (user_intent = Some "--strong"%string)
  then smart "User requested strong analysis"%string
  else match (if decide (user_intent = Some "--local"%string)
              then find_local (fast_lane r) else None) with
       | Some p => Return {| provider := p; lane := FAST;
                             reason := "User requested local provider" |}
       | None =>
           if decide (user_intent = Some "--cheap"%string)
           then fast "User requested cheap provider"%string
           else fast "Default FAST lane"%string
       end.
Proof.
  unfold route_analysis.
  destruct (smart_lane r), (fast_lane r); reflexivity.
Qed.

(** X11. The provider of a decision is one of the providers of the lane
    the decision names. *)
Theorem decision_provider_in_lane (r : CortexRouter E)
    (codebase : gmap string string) (input_data : gmap string PyVal)
    (system_doc user_intent : option string) (d : RoutingDecision E) :
  route_analysis r codebase input_data system_doc user_intent = Return d ->
  In (provider d) (primary_lane r d).
Proof.
  rewrite route_analysis_cases. unfold primary_lane. cbn zeta.
  destruct (100000 <? total_tokens codebase);
    [|destruct (truthy (dict_get input_data "has_vision"));
      [|destruct (decide (user_intent = Some "--strong"%string));
        [|destruct (decide (user_intent = Some "--local"%string));
          [destruct (find_local (fast_lane r)) as [lp|] eqn:Hloc|];
          [|destruct (decide (user_intent = Some "--cheap"%string))
           |destruct (decide (user_intent = Some "--cheap"%string))]]]].
  all: try (destruct (smart_lane r) as [|sp srest]; [discriminate|];
            intros [= <-]; simpl; now left).
  all: try (destruct (fast_lane r) as [|fp frest]; [discriminate|];
            intros [= <-]; simpl; now left).
  intros [= <-]. simpl. now apply find_local_in.
Qed.

(** X12. With a provider in each lane a decision is always reached; and
    whatever the lanes are, the only error the decision can raise is the
    IndexError of an empty lane. *)
Theorem route_analysis_raises_only_on_empty_lane (r : CortexRouter E)
    (codebase : gmap string string) (input_data : gmap string PyVal)
    (system_doc user_intent : option string) :
  (fast_lane r <> [] -> smart_lane r <> [] ->
   exists d, route_analysis r codebase input_data system_doc user_intent
             = Return d) /\
  (forall e, route_analysis r codebase input_data system_doc user_intent
             = Raise e ->
     e = IndexError /\ (fast_lane r = [] \/ smart_lane r = [])).
Proof.
  rewrite route_analysis_cases. cbn zeta.
  generalize (find_local (fast_lane r)) as local. intros local.
  destruct (smart_lane r) as [|sp srest], (fast_lane r) as [|fp frest],
    local as [lp|],
    (100000 <? total_tokens codebase),
    (truthy (dict_get input_data "has_vision")),
    (decide (user_intent = Some "--strong"%string)),
    (decide (user_intent = Some "--local"%string)),
    (decide (user_intent = Some "--cheap"%string)); simpl.
  all: split; [intros Hf Hs; try congruence; eauto
              | intros err Herr; try discriminate; inversion Herr; auto].
Qed.

(** X13. A true vision flag on a request of at most 100,000 units sends
    it to the first smart-lane provider for the reason "Vision
    capabilities required", whatever the intent, --cheap and --local
    included. *)
Theorem vision_routes_smart (r : CortexRouter E)
    (codebase : gmap string string) (input_data : gmap string PyVal)
    (system_doc user_intent : option string)
    (p : AIProvider E) (rest : list (AIProvider E)) :
  total_tokens codebase <= 100000 ->
  truthy (dict_get input_data "has_vision") = true ->
  smart_lane r = p :: rest ->
  route_analysis r codebase input_data system_doc user_intent =
  Return {| provider := p; lane := SMART;
            reason := "Vision capabilities required" |}.
Proof.
  intros Hsize Hvision Hlane. rewrite route_analysis_cases. cbn zeta.
  destruct (Z.ltb_spec 100000 (total_tokens codebase)); [lia|].
  rewrite Hvision, Hlane. reflexivity.
Qed.

(** X14. Without a hard constraint, the intent --strong selects the
    first smart-lane provider and the intent --cheap the first fast-lane
    provider, each with its own reason. *)
Theorem strong_and_cheap_intents (r : CortexRouter E)
    (codebase : gmap string string) (input_data : gmap string PyVal)
    (system_doc : option string)
    (sp fp : AIProvider E) (srest frest : list (AIProvider E)) :
  total_tokens codebase <= 100000 ->
  truthy (dict_get input_data "has_vision") = false ->
  smart_lane r = sp :: srest -> fast_lane r = fp :: frest ->
  route_analysis r codebase input_data system_doc (Some "--strong"%string)
  = Return {| provider := sp; lane := SMART;
              reason := "User requested strong analysis" |} /\
  route_analysis r codebase input_data system_doc (Some "--cheap"%string)
  = Return {| provider := fp; lane := FAST;
              reason := "User requested cheap provider" |}.
Proof.
  intros Hsize Hvision Hsmart Hfast. rewrite !route_analysis_cases.
  cbn zeta.
  destruct (Z.ltb_spec 100000 (total_tokens codebase)); [lia|].
  rewrite Hvision, Hsmart, Hfast. split; reflexivity.
Qed.

(** X15. An intent that is none of --strong, --local and --cheap counts
    for nothing: the decision is the one for no intent at all. This
    holds for "smart", "strong" and "local" written without the dashes. *)
Theorem unrecognised_intent_is_ignored (r : CortexRouter E)
    (codebase : gmap string string) (input_data : gmap string PyVal)
    (system_doc : option string) (intent : string) :
  intent <> "--strong"%string -> intent <> "--local"%string ->
  intent <> "--cheap"%string ->
  route_analysis r codebase input_data system_doc (Some intent) =
  route_analysis r codebase input_data system_doc None.
Proof.
  intros H1 H2 H3. rewrite !route_analysis_cases. cbn zeta.
  destruct (decide (Some intent = Some "--strong"%string)); [congruence|].
  destruct (decide (Some intent = Some "--local"%string)); [congruence|].
  destruct (decide (Some intent = Some "--cheap"%string)); [congruence|].
  reflexivity.
Qed.

(** X16. The decision looks at the codebase through its total size only,
    at the input data through the truth of 'has_vision' only, and not at
    the system document: requests that agree on these and on the intent
    get the same decision. *)
Theorem route_analysis_reads_size_and_flag (r : CortexRouter E)
    (codebase codebase' : gmap string string)
    (input_data input_data' : gmap string PyVal)
    (system_doc system_doc' user_intent : option string) :
  total_tokens codebase = total_tokens codebase' ->
  truthy (dict_get input_data "has_vision") =
  truthy (dict_get input_data' "has_vision") ->
  route_analysis r codebase input_data system_doc user_intent =
  route_analysis r codebase' input_data' system_doc' user_intent.
Proof.
  intros Hsize Hvision. rewrite !route_analysis_cases. cbn zeta.
  rewrite Hsize, Hvision. reflexivity.
Qed.

End WithEnv.

(** X17. The size of a codebase is the sum of the lengths of its files:
    0 for no file, the length of the file for a single one, and adding a
    file under a new path adds its length; it is never negative. *)
Theorem total_tokens_sums_lengths (codebase : gmap string string)
    (path content : string) :
  total_tokens ∅ = 0 /\
  total_tokens {[ path := content ]} = Z.of_nat (String.length content) /\
  (codebase !! path = None ->
   total_tokens (<[path := content]> codebase) =
   Z.of_nat (String.length content) + total_tokens codebase) /\
  0 <= total_tokens codebase.
Proof.
  unfold total_tokens. split; [|split; [|split]].
  - apply map_fold_empty.
  - rewrite map_fold_singleton. lia.
  - intros Hfresh. rewrite map_fold_insert_L; [reflexivity| |exact Hfresh].
    intros. lia.
  - apply (map_fold_weak_ind (fun acc _ => 0 <= acc)); [lia|].
    intros. lia.
Qed.

Section Fallback.

Context {E : Type}.
Variable codebase : gmap string string.
Variable input_data : gmap string PyVal.
Variable system_doc : option string.

Lemma primary_loop_all_invalid (providers : list (AIProvider E)) :
  Forall answers_invalid providers ->
  forall w : RWorld E, exists e',
    primary_loop codebase input_data system_doc providers w =
    (Return None,
     {| env := e'; awaited := awaited w ++ map name providers |}).
Proof.
  induction 1 as [|p rest Hp _ IH]; intros w; simpl.
  - run_exec. rewrite app_nil_r. destruct w. eauto.
  - run_exec.
    destruct (Hp codebase input_data system_doc (env w))
      as (r & e1 & -> & Hr). rewrite Hr. simpl.
    destruct (IH {| env := e1; awaited := awaited w ++ [name p] |})
      as (e' & ->). simpl. rewrite <- app_assoc. eauto.
Qed.

Lemma fallback_loop_all_unusable (providers : list (AIProvider E)) :
  Forall unusable providers ->
  forall w : RWorld E, exists e',
    fallback_loop codebase input_data system_doc providers w =
    (Return None,
     {| env := e'; awaited := awaited w ++ map name providers |}).
Proof.
  induction 1 as [|p rest Hp _ IH]; intros w; simpl.
  - run_exec. rewrite app_nil_r. destruct w. eauto.
  - run_exec.
    destruct (Hp codebase input_data system_doc (env w))
      as [(x & e1 & ->) | (r & e1 & -> & Hr)]; [|rewrite Hr]; simpl.
    all: destruct (IH {| env := e1; awaited := awaited w ++ [name p] |})
           as (e' & ->); simpl; rewrite <- app_assoc; eauto.
Qed.


(** X18. What the fallback loop hands back has passed validation: a
    result it returns always satisfies the validator. *)
Theorem fallback_result_is_valid (providers : list (AIProvider E))
    (w w' : RWorld E) (r : gmap string PyVal) :
  fallback_loop codebase input_data system_doc providers w
    = (Return (Some r), w') ->
  truthy (_validate_result r) = true.
Proof.
  revert w. induction providers as [|p rest IH]; intros w; simpl.
  - run_exec. discriminate.
  - run_exec.
    destruct (analyze_code p codebase input_data system_doc (env w))
      as [[r0|x] e1]; simpl.
    + destruct (truthy (_validate_result r0)) eqn:Hr0; simpl.
      * intros [= <- _]. exact Hr0.
      * apply IH.
    + apply IH.
Qed.


(** X20. When every provider of the decided lane answers with a rejected
    result and every provider of the other lane raises or answers with a
    rejected result, the request fails with "All AI providers failed",
    after each provider of both lanes was awaited exactly once, the
    decided lane first. *)
Theorem all_providers_failed (r : CortexRouter E)
    (user_intent : option string) (d : RoutingDecision E)
    (w : RWorld E) :
  route_analysis r codebase input_data system_doc user_intent = Return d ->
  Forall answers_invalid (primary_lane r d) ->
  Forall unusable (fallback_lane r d) ->
  exists e',
    analyze_with_fallback codebase input_data system_doc r user_intent w =
    (Raise (Exception "All AI providers failed"),
     {| env := e';
        awaited := awaited w ++ map name (primary_lane r d)
                     ++ map name (fallback_lane r d) |}).
Proof.
  intros Hroute Hprimary Hfallback.
  unfold analyze_with_fallback. run_exec. rewrite Hroute.
  fold (primary_lane r d). fold (fallback_lane r d).
  destruct (primary_loop_all_invalid _ Hprimary w) as (e1 & ->).
  destruct (fallback_loop_all_unusable _ Hfallback
              {| env := e1;
                 awaited := awaited w ++ map name (primary_lane r d) |})
    as (e2 & ->).
  simpl. rewrite <- app_assoc. eauto.
Qed.

Lemma primary_loop_awaits (providers : list (AIProvider E)) :
  forall w : RWorld E, exists extra,
    awaited (snd (primary_loop codebase input_data system_doc providers w))
      = awaited w ++ extra /\
    (length extra <= S (length providers))%nat /\
    Forall (fun n => In n (map name providers)) extra.
Proof.
  induction providers as [|p rest IH]; intros w; simpl.
  - run_exec. exists []. rewrite app_nil_r. simpl. auto.
  - run_exec.
    destruct (analyze_code p codebase input_data system_doc (env w))
      as [[r0|x] e1]; simpl.
    + destruct (truthy (_validate_result r0)); simpl.
      * destruct (analyze_code p codebase input_data system_doc e1)
          as [[r1|x1] e2]; simpl.
        all: exists [name p; name p]; rewrite <- app_assoc; simpl.
        all: split; [reflexivity|]; split; [lia|].
        all: repeat constructor; now left.
      * destruct (IH {| env := e1; awaited := awaited w ++ [name p] |})
          as (extra & -> & Hlen & Hin). simpl.
        exists (name p :: extra). rewrite <- app_assoc. simpl.
        split; [reflexivity|]. split; [lia|].
        constructor; [now left|].
        eapply Forall_impl; [exact Hin|]. simpl. auto.
    + exists [name p]. simpl. split; [reflexivity|]. split; [lia|].
      repeat constructor.
Qed.

Lemma fallback_loop_awaits (providers : list (AIProvider E)) :
  forall w : RWorld E, exists extra,
    awaited (snd (fallback_loop codebase input_data system_doc providers w))
      = awaited w ++ extra /\
    (length extra <= length providers)%nat /\
    Forall (fun n => In n (map name providers)) extra.
Proof.
  induction providers as [|p rest IH]; intros w; simpl.
  - run_exec. exists []. rewrite app_nil_r. simpl. auto.
  - run_exec.
    assert (Hrest : forall e1, exists extra,
              awaited (snd (fallback_loop codebase input_data system_doc
                              rest
                              {| env := e1;
                                 awaited := awaited w ++ [name p] |}))
                = awaited w ++ extra /\
              (length extra <= S (length rest))%nat /\
              Forall (fun n => name p = n \/ In n (map name rest)) extra).
    { intros e1.
      destruct (IH {| env := e1; awaited := awaited w ++ [name p] |})
        as (extra & -> & Hlen & Hin). simpl.
      exists (name p :: extra). rewrite <- app_assoc. simpl.
      split; [reflexivity|]. split; [lia|].
      constructor; [now left|].
      eapply Forall_impl; [exact Hin|]. simpl. auto. }
    destruct (analyze_code p codebase input_data system_doc (env w))
      as [[r0|x] e1]; simpl.
    + destruct (truthy (_validate_result r0)); simpl.
      * exists [name p]. simpl. split; [reflexivity|]. split; [lia|].
        repeat constructor.
      * apply Hrest.
    + apply Hrest.
Qed.

(** X21. A request awaits only providers of the router's two lanes, and
    at most one time more than there are providers; what was awaited
    before the request stays on record. *)
Theorem awaits_are_bounded (r : CortexRouter E)
    (user_intent : option string) (w : RWorld E) :
  exists extra,
    awaited (snd (analyze_with_fallback codebase input_data system_doc r
                    user_intent w))
      = awaited w ++ extra /\
    (length extra <= S (length (fast_lane r) + length (smart_lane r)))%nat /\
    Forall (fun n => In n (map name (fast_lane r ++ smart_lane r))) extra.
Proof.
  unfold analyze_with_fallback. run_exec.
  destruct (route_analysis r codebase input_data system_doc user_intent)
    as [d|x]; simpl.
  2: { exists []. rewrite app_nil_r. simpl. split; [reflexivity|].
       split; [lia | constructor]. }
  fold (primary_lane r d). fold (fallback_lane r d).
  assert (Hlanes :
    (length (primary_lane r d) + length (fallback_lane r d)
       = length (fast_lane r) + length (smart_lane r))%nat /\
    forall n, In n (map name (primary_lane r d)) \/
              In n (map name (fallback_lane r d)) ->
              In n (map name (fast_lane r ++ smart_lane r))).
  { unfold primary_lane, fallback_lane.
    destruct (decide (lane d = SMART)); split; try lia.
    all: intros nm; rewrite map_app, in_app_iff; tauto. }
  destruct Hlanes as [Hlen Hsub].
  destruct (primary_loop_awaits (primary_lane r d) w)
    as (ex1 & H1 & Hlen1 & Hin1).
  destruct (primary_loop codebase input_data system_doc (primary_lane r d) w)
    as [[[res|]|x] w1]; simpl in *.
  - exists ex1. split; [exact H1|]. split; [lia|].
    eapply Forall_impl; [exact Hin1|]. simpl. auto.
  - destruct (fallback_loop_awaits (fallback_lane r d) w1)
      as (ex2 & H2 & Hlen2 & Hin2).
    destruct (fallback_loop codebase input_data system_doc
                (fallback_lane r d) w1) as [[[res|]|x] w2]; simpl in *.
    all: exists (ex1 ++ ex2); rewrite H2, H1, <- app_assoc.
    all: split; [reflexivity|]; split;
         [rewrite length_app; lia
         | apply Forall_app; split;
           (eapply Forall_impl; [eassumption|]); simpl; auto].
  - exists ex1. split; [exact H1|]. split; [lia|].
    eapply Forall_impl; [exact Hin1|]. simpl. auto.
Qed.

End Fallback.

End RouterExtra.

(** * Properties of the provider configuration *)

Module ConfigExtra.
Import Configs.

(** Look a key up in a map written out entry by entry. *)
Ltac lookup_known :=
  repeat first
    [ rewrite lookup_insert_eq
    | rewrite lookup_insert_ne by discriminate
    | rewrite lookup_singleton_eq
    | rewrite lookup_singleton_ne by discriminate ].

Lemma getenv_with_default (environ : gmap string string)
    (key fallback : string) :
  exists v, getenv environ key (Some fallback) = Some v.
Proof. unfold getenv. destruct (environ !! key); eauto. Qed.

(** The entries of [load_provider_configs], name by name. *)
Lemma load_provider_configs_lookup (environ : gmap string string)
    (name : string) (c : gmap string (option string)) :
  load_provider_configs environ !! name = Some c ->
  In name known_providers /\
  (exists m, c !! "model"%string = Some (Some m)) /\
  (forall key, c !! key = Some None ->
     name = "openai"%string /\ key = "base_url"%string /\
     environ !! "OPENAI_BASE_URL"%string = None).
Proof.
  unfold load_provider_configs, known_providers.
  destruct (decide (name = "gemini"%string)) as [->|N1];
    [|rewrite lookup_insert_ne by congruence;
      destruct (decide (name = "claude"%string)) as [->|N2];
      [|rewrite lookup_insert_ne by congruence;
        destruct (decide (name = "openai"%string)) as [->|N3];
        [|rewrite lookup_insert_ne by congruence;
          destruct (decide (name = "ollama"%string)) as [->|N4];
          [|rewrite lookup_insert_ne by congruence;
            destruct (decide (name = "groq"%string)) as [->|N5];
            [|rewrite lookup_singleton_ne by congruence;
              discriminate]]]]].
  all: lookup_known; intros [= <-]; (split; [simpl; tauto|]).
  all: split;
    [lookup_known;
     match goal with
     | |- context [ getenv ?e ?k (Some ?d) ] =>
         destruct (getenv_with_default e k d) as [v ->]
     end; eauto|].
  all: intros key.
  all: repeat match goal with
       | |- context [ <[?k := _]> _ !! ?j ] =>
           is_var j; destruct (decide (j = k)) as [->|?];
           [rewrite lookup_insert_eq
           |rewrite (lookup_insert_ne _ k j) by congruence]
       | |- context [ {[ ?k := _ ]} !! ?j ] =>
           is_var j; destruct (decide (j = k)) as [->|?];
           [rewrite lookup_singleton_eq
           |rewrite (lookup_singleton_ne k j) by congruence]
       end.
  all: try discriminate.
  all: try (match goal with
            | |- Some (getenv ?e ?k (Some ?d)) = Some None -> _ =>
                destruct (getenv_with_default e k d) as [v ->];
                discriminate
            end).
  unfold getenv. destruct (environ !! "OPENAI_BASE_URL"%string);
    [discriminate | auto].
Qed.

(** X22. [get_provider_config] answers for the five providers gemini,
    claude, openai, ollama and groq, with the entry
    [load_provider_configs] has for them, and for no other name: any
    other name raises "Unknown provider: <name>". *)
Theorem get_provider_config_known_or_raises
    (environ : gmap string string) (name : string) :
  (In name known_providers ->
   exists c, get_provider_config environ name = Return c /\
             load_provider_configs environ !! name = Some c) /\
  (~ In name known_providers ->
   get_provider_config environ name =
   Raise (Exception ("Unknown provider: " ++ name))).
Proof.
  unfold get_provider_config. cbn zeta. split.
  - intros Hin.
    destruct (load_provider_configs environ !! name) as [c|] eqn:Hc;
      [eauto|]. exfalso. revert Hc.
    unfold known_providers in Hin. simpl in Hin.
    unfold load_provider_configs.
    destruct Hin as [<-|[<-|[<-|[<-|[<-|[]]]]]]; lookup_known;
      discriminate.
  - intros Hout.
    destruct (load_provider_configs environ !! name) as [c|] eqn:Hc;
      [|reflexivity].
    destruct (load_provider_configs_lookup environ name c Hc) as [Hin _].
    contradiction.
Qed.


(** X24. A variable of the environment overrides the built-in default of
    the setting it stands for, and the default applies when it is not
    set: shown for the model of each provider. *)
Theorem environment_overrides_model (environ : gmap string string)
    (name variable fallback : string) :
  In (name, variable, fallback)
     [("gemini", "GEMINI_MODEL", "gemini-2.0-flash");
      ("claude", "ANTHROPIC_MODEL", "claude-3-opus-20240229");
      ("openai", "OPENAI_MODEL", "gpt-4o");
      ("ollama", "OLLAMA_MODEL", "llama3");
      ("groq", "GROQ_MODEL", "llama-3.3-70b-versatile")]%string ->
  exists c, get_provider_config environ name = Return c /\
    c !! "model"%string =
    Some (Some (default fallback (environ !! variable))).
Proof.
  intros Hin. simpl in Hin.
  unfold get_provider_config, load_provider_configs. cbn zeta.
  destruct Hin as [H|[H|[H|[H|[H|[]]]]]]; inversion H; subst; clear H.
  all: lookup_known; eexists; split; [reflexivity|].
  all: lookup_known; unfold getenv.
  all: match goal with
       | |- context [ default _ (?e !! ?k) ] => destruct (e !! k)
       end; reflexivity.
Qed.

End ConfigExtra.

(** * Properties of the providers behind their breakers *)

Module ProviderExtra.
Import Breaker BreakerProps Router Providers.

Section WithVendor.

Context {V : Type}.

(** What a call returns, the operation returned. *)
Lemma call_returns_from_operation {T} (func : Op V T) (s : St V) (r : T) :
  fst (call func s) = Return r ->
  exists w w', func w = (Return r, w').
Proof.
  destruct s as [[nm cfg st fc sc oa h] w]. exec; simpl.
  destruct st; simpl; [ | destruct oa as [t0|]; simpl | ].
  all: thresholds; simpl; try discriminate.
  all: run_op func; simpl; thresholds; simpl; try discriminate.
  all: intros [= ->]; eauto.
Qed.

Lemma _call_result_is_valid (c : ProviderClass V)
    (codebase : gmap string string) (input_data : gmap string PyVal)
    (system_doc : option string) (w w' : World V)
    (r : gmap string PyVal) :
  _call c codebase input_data system_doc w = (Return r, w') ->
  truthy (_validate_result r) = true /\
  r !! "provider"%string = Some (PyStr (p_name c)).
Proof.
  unfold _call.
  destruct (vendor_request c codebase input_data system_doc w)
    as [[text|e] w1]; [|discriminate].
  intros [= <- _]. split; reflexivity.
Qed.

(** X25. A provider never hands an invalid result to the router: when
    its [analyze_code] returns, the result has passed through the
    breaker from the vendor, satisfies the validator and names the
    provider. *)
Theorem provider_result_validates (c : ProviderClass V)
    (codebase : gmap string string) (input_data : gmap string PyVal)
    (system_doc : option string) (b b' : Backend V)
    (r : gmap string PyVal) :
  analyze_code_of c codebase input_data system_doc b = (Return r, b') ->
  truthy (_validate_result r) = true /\
  r !! "provider"%string = Some (PyStr (p_name c)).
Proof.
  unfold analyze_code_of.
  destruct (call (_call c codebase input_data system_doc)
              {| self := circuit_breaker c b; world := outside b |})
    as [o s'] eqn:Hcall.
  intros [= -> _].
  destruct (call_returns_from_operation
              (_call c codebase input_data system_doc)
              {| self := circuit_breaker c b; world := outside b |} r)
    as (w & w' & Hop); [now rewrite Hcall|].
  exact (_call_result_is_valid c codebase input_data system_doc w w' r Hop).
Qed.

(** X26. A provider whose breaker is open and still within its timeout
    costs no vendor request: its [analyze_code] raises the breaker's
    error, the vendors' state and every breaker are as before, only the
    clock was read twice; and the fallback loop passes over it to the
    next provider. *)
Theorem open_provider_is_skipped (c : ProviderClass V)
    (codebase : gmap string string) (input_data : gmap string PyVal)
    (system_doc : option string) (b : Backend V)
    (cb : CircuitBreaker) (t0 : Z)
    (rest : list (AIProvider (Backend V))) (log : list string) :
  breakers b !! p_name c = Some cb ->
  _state cb = OPEN -> _opened_at cb = Some t0 ->
  clock (outside b) (reads (outside b)) - t0 < timeout (config cb) ->
  clock (outside b) (S (reads (outside b))) - t0 < timeout (config cb) ->
  let elapsed := clock (outside b) (S (reads (outside b))) - t0 in
  let b' := {| breakers := breakers b;
               outside := ticked 2 (outside b) |} in
  analyze_code_of c codebase input_data system_doc b =
    (Raise (CircuitBreakerError (provider_name cb)
              (timeout (config cb) - elapsed)), b') /\
  Breaker.env (outside b') = Breaker.env (outside b) /\
  fallback_loop codebase input_data system_doc (provider_of c :: rest)
    {| Router.env := b; awaited := log |} =
  fallback_loop codebase input_data system_doc rest
    {| Router.env := b'; awaited := log ++ [p_name c] |}.
Proof.
  intros Hcb Hst Hoa Hlt1 Hlt2 elapsed b'.
  assert (Hcode : analyze_code_of c codebase input_data system_doc b =
            (Raise (CircuitBreakerError (provider_name cb)
                      (timeout (config cb) - elapsed)), b')).
  { unfold analyze_code_of, circuit_breaker. rewrite Hcb. simpl.
    rewrite (call_refused _ cb (outside b) t0 Hst Hoa Hlt1).
    rewrite Z.max_r by (subst elapsed; lia).
    rewrite (insert_id _ _ _ Hcb). reflexivity. }
  split; [exact Hcode|]. split; [reflexivity|].
  simpl. cbv [mbind mret Exec_bind Exec_ret try_except await_analyze_code].
  simpl. rewrite Hcode. reflexivity.
Qed.


Lemma after_requests_as_calls (n : nat) (c : ProviderClass V)
    (codebase : gmap string string) (input_data : gmap string PyVal)
    (system_doc : option string) :
  forall b : Backend V,
  let b' := after_requests n c codebase input_data system_doc b in
  {| self := circuit_breaker c b'; world := outside b' |} =
  after_calls (repeat (_call c codebase input_data system_doc) n)
    {| self := circuit_breaker c b; world := outside b |}.
Proof.
  induction n as [|n IH]; intros b; [reflexivity|].
  cbn zeta. simpl after_requests. simpl repeat.
  rewrite after_calls_cons. cbn zeta in IH. rewrite IH.
  f_equal. unfold analyze_code_of, after_call.
  destruct (call (_call c codebase input_data system_doc)
              {| self := circuit_breaker c b; world := outside b |})
    as [o [cb1 w1]]. simpl. unfold circuit_breaker. simpl.
  rewrite lookup_insert_eq. reflexivity.
Qed.

(** X28. Vendor failures count against the provider's own breaker:
    starting from a closed breaker with no failure counted, requests to
    a provider whose vendor raises every time leave the breaker closed
    with one failure counted per request while they are fewer than the
    failure threshold, and the request that reaches the threshold opens
    it. *)
Theorem vendor_failures_open_the_breaker (n : nat) (c : ProviderClass V)
    (codebase : gmap string string) (input_data : gmap string PyVal)
    (system_doc : option string) (b : Backend V) :
  (forall w, exists e w',
     vendor_request c codebase input_data system_doc w = (Raise e, w')) ->
  _state (circuit_breaker c b) = CLOSED ->
  _failure_count (circuit_breaker c b) = 0 ->
  let threshold := failure_threshold (config (circuit_breaker c b)) in
  let cb' :=
    circuit_breaker c
      (after_requests n c codebase input_data system_doc b) in
  (Z.of_nat n < threshold ->
   _state cb' = CLOSED /\ _failure_count cb' = Z.of_nat n) /\
  (Z.of_nat n = threshold -> 1 <= threshold -> _state cb' = OPEN).
Proof.
  intros Hdown Hst Hfc threshold cb'.
  assert (Hfails : fails (_call c codebase input_data system_doc)).
  { intros w. unfold _call. destruct (Hdown w) as (e & w' & ->). eauto. }
  assert (Hall : Forall fails
                   (repeat (_call c codebase input_data system_doc) n)).
  { clear -Hfails. induction n; simpl; constructor; auto. }
  pose proof (after_requests_as_calls n c codebase input_data system_doc b)
    as Hruns. cbn zeta in Hruns.
  assert (Hself : cb' =
            self (after_calls
                    (repeat (_call c codebase input_data system_doc) n)
                    {| self := circuit_breaker c b;
                       world := outside b |}))
    by (rewrite <- Hruns; reflexivity).
  rewrite Hself. split.
  - intros Hlt.
    destruct (failures_below_threshold
                (repeat (_call c codebase input_data system_doc) n)
                {| self := circuit_breaker c b; world := outside b |})
      as (H1 & H2 & _); simpl; auto.
    + rewrite repeat_length, Hfc. fold threshold. lia.
    + simpl in H2. rewrite repeat_length, Hfc in H2.
      split; [exact H1 | lia].
  - intros Heq Hone.
    destruct (BreakerExtra.failures_open
                (repeat (_call c codebase input_data system_doc) n)
                {| self := circuit_breaker c b; world := outside b |})
      as (H1 & _); simpl; auto.
    rewrite repeat_length. exact Heq.
Qed.

End WithVendor.
End ProviderExtra.

(** * The further properties on the fixtures of the test-suite *)

Module ExtraExamples.
Import Breaker BreakerProps BreakerExamples BreakerExtra.

Lemma history_window_bounded_witness :
  let s0 := {| self := __init__ "test_provider" (Some test_config);
               world := world_at 0 |} in
  history_inv (self s0) /\ history_inv (self (after_call fail_func s0)).
Proof.
  assert (H0 : history_inv (__init__ "test_provider" (Some test_config)))
    by (unfold history_inv; simpl; lia).
  split; [exact H0|].
  apply (history_window_bounded fail_func
           {| self := __init__ "test_provider" (Some test_config);
              world := world_at 0 |} H0).
Defined.


Lemma open_without_timestamp_is_stuck_witness :
  let s0 := {| self := marked_open; world := world_at 1000 |} in
  fst (call success_func s0) =
    Raise (CircuitBreakerError "test_provider" 0) /\
  self (after_calls [success_func; success_func] s0) = marked_open /\
  env (world (after_calls [success_func; success_func] s0)) = 0%nat.
Proof.
  destruct (open_without_timestamp_is_stuck marked_open (world_at 1000)
              success_func [success_func; success_func] eq_refl eq_refl)
    as (Hcall & Hself & Henv).
  split; [rewrite Hcall; reflexivity|]. split; [exact Hself | exact Henv].
Defined.

Lemma counters_invariant_witness :
  let s0 := {| self := opened_breaker 100; world := world_at 105 |} in
  counters_inv (self s0) /\
  counters_inv (self (after_call success_func s0)).
Proof.
  assert (H0 : counters_inv (opened_breaker 100))
    by (unfold counters_inv; simpl; repeat split; lia).
  split; [exact H0|].
  apply (counters_invariant success_func
           {| self := opened_breaker 100; world := world_at 105 |} H0).
Defined.

Lemma success_interrupts_failure_run_witness :
  let s0 := {| self := __init__ "test_provider" (Some test_config);
               world := world_at 0 |} in
  let cb' :=
    self (after_calls
            [fail_func; fail_func; success_func; fail_func; fail_func]
            s0) in
  _state cb' = CLOSED /\ _failure_count cb' = 2.
Proof.
  apply (success_interrupts_failure_run
           (__init__ "test_provider" (Some test_config)) (world_at 0)
           [fail_func; fail_func] [fail_func; fail_func] success_func).
  - reflexivity.
  - reflexivity.
  - repeat constructor; apply fail_func_fails.
  - apply success_func_succeeds.
  - repeat constructor; apply fail_func_fails.
  - reflexivity.
  - reflexivity.
Defined.

Lemma retry_after_bounds_witness :
  exists retry_after,
    fst (call success_func
           {| self := opened_breaker 100; world := world_at 102 |}) =
      Raise (CircuitBreakerError "test_provider" retry_after) /\
    0 <= retry_after.
Proof.
  destruct (retry_after_bounds success_func (opened_breaker 100)
              (world_at 102) 100 eq_refl eq_refl eq_refl)
    as (r & Hcall & Hge & _).
  exists r. split; [exact Hcall | exact Hge].
Defined.

Lemma recovery_restores_initial_state_witness :
  let opened :=
    after_calls [fail_func; fail_func; fail_func]
      {| self := __init__ "test_provider" (Some test_config);
         world := world_stepping 10 |} in
  _state (self opened) = OPEN /\
  with_call_history []
    (self (after_calls [success_func; success_func] opened)) =
  __init__ "test_provider" (Some test_config).
Proof.
  apply (recovery_restores_initial_state "test_provider" test_config
           (world_stepping 10) [fail_func; fail_func; fail_func]
           [success_func; success_func]).
  - repeat constructor; apply fail_func_fails.
  - repeat constructor; apply success_func_succeeds.
  - discriminate.
  - discriminate.
  - reflexivity.
  - reflexivity.
  - intros t Ht. vm_compute in Ht. injection Ht as <-.
    vm_compute. discriminate.
Defined.

End ExtraExamples.

Module RouterExtraExamples.
Import Router RouterProps RouterExtra.


Lemma mock_returning_invalid (nm : string) (ln : RoutingLane) :
  answers_invalid (mock_returning nm ln invalid_result).
Proof. intros c i d e. exists invalid_result, e. split; reflexivity. Qed.

Lemma mock_raising_unusable (nm : string) (ln : RoutingLane) (x : exn) :
  unusable (mock_raising nm ln x).
Proof. intros c i d e. left. exists x, e. reflexivity. Qed.

Lemma mock_invalid_unusable (nm : string) (ln : RoutingLane) :
  unusable (mock_returning nm ln invalid_result).
Proof.
  intros c i d e. right. exists invalid_result, e. split; reflexivity.
Qed.

Lemma decision_provider_in_lane_witness :
  In (mock_returning "ollama" FAST (valid_result "ollama"))
     (fast_lane router_all_valid).
Proof.
  apply (decision_provider_in_lane router_all_valid test_codebase
           test_input None None
           {| provider := mock_returning "ollama" FAST
                            (valid_result "ollama");
              lane := FAST; reason := "Default FAST lane" |}).
  reflexivity.
Defined.

Lemma vision_routes_smart_witness :
  route_analysis router_all_valid ∅ vision_input None
    (Some "--cheap"%string) =
  Return {| provider := mock_returning "claude" SMART
                          (valid_result "claude");
            lane := SMART; reason := "Vision capabilities required" |}.
Proof.
  apply (vision_routes_smart router_all_valid ∅ vision_input None
           (Some "--cheap"%string)
           (mock_returning "claude" SMART (valid_result "claude"))
           [mock_returning "openai" FAST (valid_result "openai")]).
  - vm_compute. discriminate.
  - reflexivity.
  - reflexivity.
Defined.

Lemma strong_and_cheap_intents_witness :
  route_analysis router_all_valid test_codebase test_input None
    (Some "--strong"%string)
  = Return {| provider := mock_returning "claude" SMART
                            (valid_result "claude");
              lane := SMART;
              reason := "User requested strong analysis" |} /\
  route_analysis router_all_valid test_codebase test_input None
    (Some "--cheap"%string)
  = Return {| provider := mock_returning "ollama" FAST
                            (valid_result "ollama");
              lane := FAST;
              reason := "User requested cheap provider" |}.
Proof.
  apply (strong_and_cheap_intents router_all_valid test_codebase
           test_input None
           (mock_returning "claude" SMART (valid_result "claude"))
           (mock_returning "ollama" FAST (valid_result "ollama"))
           [mock_returning "openai" FAST (valid_result "openai")]
           [mock_returning "groq" FAST (valid_result "groq");
            mock_returning "gemini" FAST (valid_result "gemini")]).
  - vm_compute. discriminate.
  - reflexivity.
  - reflexivity.
  - reflexivity.
Defined.

(** The intent "smart", as the breakdown endpoint passes it. *)
Lemma unrecognised_intent_is_ignored_witness :
  route_analysis router_all_valid ∅ test_input None (Some "smart"%string)
  = route_analysis router_all_valid ∅ test_input None None.
Proof.
  apply (unrecognised_intent_is_ignored router_all_valid ∅ test_input None
           "smart"); discriminate.
Defined.

Lemma route_analysis_reads_size_and_flag_witness :
  route_analysis router_all_valid test_codebase test_input None None =
  route_analysis router_all_valid (codebase_of_size 14) ∅
    (Some "A long system document"%string) None.
Proof.
  apply (route_analysis_reads_size_and_flag router_all_valid test_codebase
           (codebase_of_size 14) test_input ∅ None
           (Some "A long system document"%string) None).
  - vm_compute. reflexivity.
  - reflexivity.
Defined.

Lemma fallback_result_is_valid_witness :
  truthy (_validate_result (valid_result "openai")) = true.
Proof.
  apply (fallback_result_is_valid test_codebase test_input None
           (smart_lane router_fast_invalid) (fresh tt)
           {| env := tt; awaited := ["claude"; "openai"]%string |}
           (valid_result "openai")).
  vm_compute. reflexivity.
Defined.


Lemma all_providers_failed_witness :
  exists e',
    analyze_with_fallback test_codebase test_input None router_none_usable
      None (fresh tt) =
    (Raise (Exception "All AI providers failed"),
     {| env := e';
        awaited := ["ollama"; "groq"; "gemini"; "claude"; "openai"]%string
     |}).
Proof.
  apply (all_providers_failed test_codebase test_input None
           router_none_usable None
           {| provider := mock_returning "ollama" FAST invalid_result;
              lane := FAST; reason := "Default FAST lane" |}
           (fresh tt)).
  - reflexivity.
  - constructor; [apply mock_returning_invalid|].
    constructor; [apply mock_returning_invalid|].
    constructor; [apply mock_returning_invalid | constructor].
  - constructor; [apply mock_raising_unusable|].
    constructor; [apply mock_invalid_unusable | constructor].
Defined.

End RouterExtraExamples.

Module ConfigExtraExamples.
Import Configs ConfigExtra.


Lemma environment_overrides_model_witness :
  exists c,
    get_provider_config {[ "GEMINI_MODEL"%string := "gemini-1.5-pro"%string ]}
      "gemini" = Return c /\
    c !! "model"%string =
    Some (Some (default "gemini-2.0-flash"%string
                  (({[ "GEMINI_MODEL"%string := "gemini-1.5-pro"%string ]}
                      : gmap string string) !! "GEMINI_MODEL"%string))).
Proof.
  apply (environment_overrides_model
           {[ "GEMINI_MODEL"%string := "gemini-1.5-pro"%string ]}
           "gemini" "GEMINI_MODEL" "gemini-2.0-flash").
  left. reflexivity.
Defined.

End ConfigExtraExamples.

Module ProviderExtraExamples.
Import Breaker BreakerProps Router Providers ProviderExtra.

Lemma provider_result_validates_witness :
  exists r b',
    analyze_code_of (OllamaProvider (PyStr "llama3") vendor_up)
      test_codebase test_input None (new_backend 0) = (Return r, b') /\
    truthy (_validate_result r) = true /\
    r !! "provider"%string = Some (PyStr "ollama").
Proof.
  destruct (analyze_code_of (OllamaProvider (PyStr "llama3") vendor_up)
              test_codebase test_input None (new_backend 0))
    as [[r|e] b'] eqn:Hcode.
  - exists r, b'. split; [reflexivity|].
    exact (provider_result_validates
             (OllamaProvider (PyStr "llama3") vendor_up)
             test_codebase test_input None (new_backend 0) b' r Hcode).
  - vm_compute in Hcode. discriminate.
Defined.

(** The breaker of ollama opened at 100 with timeout 60; a request at
    time 102: refused with 57 ticks to wait, no vendor request counted. *)
Lemma open_provider_is_skipped_witness :
  let c := OllamaProvider (PyStr "llama3") vendor_up in
  let b := backend_ollama_open 100 102 in
  fst (analyze_code_of c test_codebase test_input None b) =
    Raise (CircuitBreakerError "ollama" 57) /\
  Breaker.env (outside (snd (analyze_code_of c test_codebase test_input
                               None b))) = 0%nat.
Proof.
  destruct (open_provider_is_skipped
              (OllamaProvider (PyStr "llama3") vendor_up)
              test_codebase test_input None (backend_ollama_open 100 102)
              (with_opened_at (Some 100)
                 (with_state OPEN
                    (Breaker.__init__ "ollama" (Some (cb_config 3)))))
              100 [] [])
    as (Hcode & Henv & _).
  - reflexivity.
  - reflexivity.
  - reflexivity.
  - reflexivity.
  - reflexivity.
  - cbn zeta. rewrite Hcode. split; reflexivity.
Defined.


(** Ollama's breaker has threshold 3: two failed requests leave it
    closed with 2 failures counted, the third opens it. *)
Lemma vendor_failures_open_the_breaker_witness :
  let c := OllamaProvider (PyStr "llama3") vendor_down in
  let after n :=
    circuit_breaker c
      (after_requests n c test_codebase test_input None (new_backend 0)) in
  (_state (after 2%nat) = CLOSED /\ _failure_count (after 2%nat) = 2) /\
  _state (after 3%nat) = OPEN.
Proof.
  assert (Hdown : forall w, exists e w',
            vendor_request (OllamaProvider (PyStr "llama3") vendor_down)
              test_codebase test_input None w = (Raise e, w'))
    by (intros w; simpl; unfold vendor_down; eauto).
  split.
  - destruct (vendor_failures_open_the_breaker 2
                (OllamaProvider (PyStr "llama3") vendor_down)
                test_codebase test_input None (new_backend 0) Hdown
                eq_refl eq_refl) as [Hbelow _].
    apply Hbelow. reflexivity.
  - destruct (vendor_failures_open_the_breaker 3
                (OllamaProvider (PyStr "llama3") vendor_down)
                test_codebase test_input None (new_backend 0) Hdown
                eq_refl eq_refl) as [_ Hreach].
    apply Hreach; [reflexivity | discriminate].
Defined.

End ProviderExtraExamples.
